(** * The session and resource lifecycle manager of agent-browser

    A shallow embedding of [BrowserManager] (the class that owns the
    browser / context / tab registry, the debugging session, the screencast,
    the video recording and the scoped header routes), together with the
    properties its specification states about it.

    The class talks to three collaborators that are not part of it: the
    browser engine (Playwright), the file system and the network.  They are
    modelled as an [Engine]: every request is appended to a chronological
    log, and what the collaborator answers is read from an oracle, so that
    every theorem holds for every behaviour of the collaborators, failures
    included.  JavaScript exceptions are the [Throw] outcome of the monad
    [M]; a [Throw] keeps the state reached so far, as a rejected promise
    keeps the assignments made before it. *)

From Stdlib Require Import ZArith Lia.
From stdpp Require Import base list strings pretty.

(** ** Engine objects *)

(** Engine objects are compared by identity in the source ([indexOf],
    [includes], [!==]); a handle is that identity. *)
Definition Browser := nat.
Definition BrowserContext := nat.
Definition Page := nat.
Definition CDPSession := nat.
Definition Video := nat.
Definition FrameCallback := nat.
Definition FrameHandler := nat.

(** [Record<string, string>] *)
Definition Headers := list (string * string).

(** The closure [async (route) => route.continue({ headers:
    safeHeaderMerge(route.request().headers(), headers) })] built by
    [setScopedHeaders]: its identity (every evaluation of the arrow function
    is a new object) and the [headers] it captured. *)
Record RouteHandler := mkRouteHandler {
  handler_id : nat;
  handler_headers : Headers;
}.

(** Modelled from the spec: the reference map type [RefMap] is declared in
    [snapshot.js], which is not among the sources; a token maps to a role
    with an optional accessible name and disambiguating index, or, for the
    pseudo-roles, to a structural selector. *)
Record RefData := mkRefData {
  ref_role : string;
  ref_name : option string;
  ref_nth : option Z;
  ref_selector : string;
}.
Definition RefMap := list (string * RefData).

(** ** JavaScript values and arrays *)

(** Truthiness of a string ([''] is falsy) and of [string | null]. *)
Definition truthy_string (s : string) : bool := negb (String.eqb s "").

Definition truthy (o : option string) : bool :=
  match o with Some s => truthy_string s | None => false end.

Fixpoint indexOf_from {A} (eqb : A -> A -> bool) (x : A) (l : list A) (i : Z) : Z :=
  match l with
  | [] => (-1)%Z
  | y :: t => if eqb y x then i else indexOf_from eqb x t (i + 1)%Z
  end.

(** [Array.prototype.indexOf] on an array of engine objects: the position of
    the first occurrence, [-1] when there is none. *)
Definition indexOf (x : nat) (l : list nat) : Z := indexOf_from Nat.eqb x l 0.

(** [Array.prototype.includes] *)
Definition includes (x : nat) (l : list nat) : bool := negb (indexOf x l =? -1)%Z.

(** [array.splice(i, 1)]: a negative start counts from the end, a start past
    the end removes nothing. *)
Definition splice1 {A} (i : Z) (l : list A) : list A :=
  let len := Z.of_nat (length l) in
  let start := if (i <? 0)%Z then Z.max (len + i) 0 else Z.min i len in
  delete (Z.to_nat start) l.

(** [array[i]]: [undefined] (here [None]) outside [0 .. length - 1]. *)
Definition at_index {A} (l : list A) (i : Z) : option A :=
  if (i <? 0)%Z then None else l !! Z.to_nat i.

(** [array.push(x)] *)
Definition push {A} (x : A) (l : list A) : list A := l ++ [x].

(** [String.prototype.startsWith] and [String.prototype.endsWith] *)
Definition startsWith (s prefix : string) : bool :=
  String.eqb (String.substring 0 (String.length prefix) s) prefix.

Definition endsWith (s suffix : string) : bool :=
  (String.length suffix <=? String.length s)%nat
  && String.eqb (String.substring (String.length s - String.length suffix)
                                  (String.length suffix) s) suffix.

(** A JavaScript [Map] with string keys: [get], [set] (which keeps the
    position of a key already present) and [delete]. *)
Fixpoint map_get {V} (k : string) (m : list (string * V)) : option V :=
  match m with
  | [] => None
  | (k', v) :: t => if String.eqb k' k then Some v else map_get k t
  end.

Fixpoint map_set {V} (k : string) (v : V) (m : list (string * V)) : list (string * V) :=
  match m with
  | [] => [(k, v)]
  | (k', v') :: t => if String.eqb k' k then (k, v) :: t else (k', v') :: map_set k v t
  end.

Fixpoint map_delete {V} (k : string) (m : list (string * V)) : list (string * V) :=
  match m with
  | [] => []
  | (k', v') :: t => if String.eqb k' k then t else (k', v') :: map_delete k t
  end.

(** ** The manager's fields *)

Record BrowserManager := mkBrowserManager {
  browser : option Browser;
  cdpEndpoint : option string;
  isPersistentContext : bool;
  browserbaseSessionId : option string;
  browserbaseApiKey : option string;
  browserUseSessionId : option string;
  browserUseApiKey : option string;
  kernelSessionId : option string;
  kernelApiKey : option string;
  contexts : list BrowserContext;
  pages : list Page;
  activePageIndex : Z;
  refMap : RefMap;
  lastSnapshot : string;
  scopedHeaderRoutes : list (string * RouteHandler);
  cdpSession : option CDPSession;
  screencastActive : bool;
  frameCallback : option FrameCallback;
  screencastFrameHandler : option FrameHandler;
  recordingContext : option BrowserContext;
  recordingPage : option Page;
  recordingOutputPath : string;
  recordingTempDir : string;
  launchWarnings : list string;
}.

(** [new BrowserManager()]: the field initialisers of the class. *)
Definition new_BrowserManager : BrowserManager :=
  {| browser := None; cdpEndpoint := None; isPersistentContext := false;
     browserbaseSessionId := None; browserbaseApiKey := None;
     browserUseSessionId := None; browserUseApiKey := None;
     kernelSessionId := None; kernelApiKey := None;
     contexts := []; pages := []; activePageIndex := 0;
     refMap := []; lastSnapshot := ""; scopedHeaderRoutes := [];
     cdpSession := None; screencastActive := false; frameCallback := None;
     screencastFrameHandler := None;
     recordingContext := None; recordingPage := None;
     recordingOutputPath := ""; recordingTempDir := ""; launchWarnings := [] |}.

(** Assignment to one field. *)
Definition set_browser (v : option Browser) (m : BrowserManager) : BrowserManager :=
  {| browser := v; cdpEndpoint := cdpEndpoint m; isPersistentContext := isPersistentContext m;
     browserbaseSessionId := browserbaseSessionId m; browserbaseApiKey := browserbaseApiKey m;
     browserUseSessionId := browserUseSessionId m; browserUseApiKey := browserUseApiKey m;
     kernelSessionId := kernelSessionId m; kernelApiKey := kernelApiKey m; contexts := contexts m; pages := pages m;
     activePageIndex := activePageIndex m; refMap := refMap m; lastSnapshot := lastSnapshot m;
     scopedHeaderRoutes := scopedHeaderRoutes m; cdpSession := cdpSession m; screencastActive := screencastActive m;
     frameCallback := frameCallback m; screencastFrameHandler := screencastFrameHandler m;
     recordingContext := recordingContext m; recordingPage := recordingPage m;
     recordingOutputPath := recordingOutputPath m; recordingTempDir := recordingTempDir m;
     launchWarnings := launchWarnings m |}.

Definition set_cdpEndpoint (v : option string) (m : BrowserManager) : BrowserManager :=
  {| browser := browser m; cdpEndpoint := v; isPersistentContext := isPersistentContext m;
     browserbaseSessionId := browserbaseSessionId m; browserbaseApiKey := browserbaseApiKey m;
     browserUseSessionId := browserUseSessionId m; browserUseApiKey := browserUseApiKey m;
     kernelSessionId := kernelSessionId m; kernelApiKey := kernelApiKey m; contexts := contexts m; pages := pages m;
     activePageIndex := activePageIndex m; refMap := refMap m; lastSnapshot := lastSnapshot m;
     scopedHeaderRoutes := scopedHeaderRoutes m; cdpSession := cdpSession m; screencastActive := screencastActive m;
     frameCallback := frameCallback m; screencastFrameHandler := screencastFrameHandler m;
     recordingContext := recordingContext m; recordingPage := recordingPage m;
     recordingOutputPath := recordingOutputPath m; recordingTempDir := recordingTempDir m;
     launchWarnings := launchWarnings m |}.

Definition set_isPersistentContext (v : bool) (m : BrowserManager) : BrowserManager :=
  {| browser := browser m; cdpEndpoint := cdpEndpoint m; isPersistentContext := v;
     browserbaseSessionId := browserbaseSessionId m; browserbaseApiKey := browserbaseApiKey m;
     browserUseSessionId := browserUseSessionId m; browserUseApiKey := browserUseApiKey m;
     kernelSessionId := kernelSessionId m; kernelApiKey := kernelApiKey m; contexts := contexts m; pages := pages m;
     activePageIndex := activePageIndex m; refMap := refMap m; lastSnapshot := lastSnapshot m;
     scopedHeaderRoutes := scopedHeaderRoutes m; cdpSession := cdpSession m; screencastActive := screencastActive m;
     frameCallback := frameCallback m; screencastFrameHandler := screencastFrameHandler m;
     recordingContext := recordingContext m; recordingPage := recordingPage m;
     recordingOutputPath := recordingOutputPath m; recordingTempDir := recordingTempDir m;
     launchWarnings := launchWarnings m |}.

Definition set_browserbaseSessionId (v : option string) (m : BrowserManager) : BrowserManager :=
  {| browser := browser m; cdpEndpoint := cdpEndpoint m; isPersistentContext := isPersistentContext m;
     browserbaseSessionId := v; browserbaseApiKey := browserbaseApiKey m;
     browserUseSessionId := browserUseSessionId m; browserUseApiKey := browserUseApiKey m;
     kernelSessionId := kernelSessionId m; kernelApiKey := kernelApiKey m; contexts := contexts m; pages := pages m;
     activePageIndex := activePageIndex m; refMap := refMap m; lastSnapshot := lastSnapshot m;
     scopedHeaderRoutes := scopedHeaderRoutes m; cdpSession := cdpSession m; screencastActive := screencastActive m;
     frameCallback := frameCallback m; screencastFrameHandler := screencastFrameHandler m;
     recordingContext := recordingContext m; recordingPage := recordingPage m;
     recordingOutputPath := recordingOutputPath m; recordingTempDir := recordingTempDir m;
     launchWarnings := launchWarnings m |}.

Definition set_browserbaseApiKey (v : option string) (m : BrowserManager) : BrowserManager :=
  {| browser := browser m; cdpEndpoint := cdpEndpoint m; isPersistentContext := isPersistentContext m;
     browserbaseSessionId := browserbaseSessionId m; browserbaseApiKey := v;
     browserUseSessionId := browserUseSessionId m; browserUseApiKey := browserUseApiKey m;
     kernelSessionId := kernelSessionId m; kernelApiKey := kernelApiKey m; contexts := contexts m; pages := pages m;
     activePageIndex := activePageIndex m; refMap := refMap m; lastSnapshot := lastSnapshot m;
     scopedHeaderRoutes := scopedHeaderRoutes m; cdpSession := cdpSession m; screencastActive := screencastActive m;
     frameCallback := frameCallback m; screencastFrameHandler := screencastFrameHandler m;
     recordingContext := recordingContext m; recordingPage := recordingPage m;
     recordingOutputPath := recordingOutputPath m; recordingTempDir := recordingTempDir m;
     launchWarnings := launchWarnings m |}.

Definition set_browserUseSessionId (v : option string) (m : BrowserManager) : BrowserManager :=
  {| browser := browser m; cdpEndpoint := cdpEndpoint m; isPersistentContext := isPersistentContext m;
     browserbaseSessionId := browserbaseSessionId m; browserbaseApiKey := browserbaseApiKey m;
     browserUseSessionId := v; browserUseApiKey := browserUseApiKey m; kernelSessionId := kernelSessionId m;
     kernelApiKey := kernelApiKey m; contexts := contexts m; pages := pages m; activePageIndex := activePageIndex m;
     refMap := refMap m; lastSnapshot := lastSnapshot m; scopedHeaderRoutes := scopedHeaderRoutes m;
     cdpSession := cdpSession m; screencastActive := screencastActive m; frameCallback := frameCallback m;
     screencastFrameHandler := screencastFrameHandler m; recordingContext := recordingContext m;
     recordingPage := recordingPage m; recordingOutputPath := recordingOutputPath m;
     recordingTempDir := recordingTempDir m; launchWarnings := launchWarnings m |}.

Definition set_browserUseApiKey (v : option string) (m : BrowserManager) : BrowserManager :=
  {| browser := browser m; cdpEndpoint := cdpEndpoint m; isPersistentContext := isPersistentContext m;
     browserbaseSessionId := browserbaseSessionId m; browserbaseApiKey := browserbaseApiKey m;
     browserUseSessionId := browserUseSessionId m; browserUseApiKey := v; kernelSessionId := kernelSessionId m;
     kernelApiKey := kernelApiKey m; contexts := contexts m; pages := pages m; activePageIndex := activePageIndex m;
     refMap := refMap m; lastSnapshot := lastSnapshot m; scopedHeaderRoutes := scopedHeaderRoutes m;
     cdpSession := cdpSession m; screencastActive := screencastActive m; frameCallback := frameCallback m;
     screencastFrameHandler := screencastFrameHandler m; recordingContext := recordingContext m;
     recordingPage := recordingPage m; recordingOutputPath := recordingOutputPath m;
     recordingTempDir := recordingTempDir m; launchWarnings := launchWarnings m |}.

Definition set_kernelSessionId (v : option string) (m : BrowserManager) : BrowserManager :=
  {| browser := browser m; cdpEndpoint := cdpEndpoint m; isPersistentContext := isPersistentContext m;
     browserbaseSessionId := browserbaseSessionId m; browserbaseApiKey := browserbaseApiKey m;
     browserUseSessionId := browserUseSessionId m; browserUseApiKey := browserUseApiKey m; kernelSessionId := v;
     kernelApiKey := kernelApiKey m; contexts := contexts m; pages := pages m; activePageIndex := activePageIndex m;
     refMap := refMap m; lastSnapshot := lastSnapshot m; scopedHeaderRoutes := scopedHeaderRoutes m;
     cdpSession := cdpSession m; screencastActive := screencastActive m; frameCallback := frameCallback m;
     screencastFrameHandler := screencastFrameHandler m; recordingContext := recordingContext m;
     recordingPage := recordingPage m; recordingOutputPath := recordingOutputPath m;
     recordingTempDir := recordingTempDir m; launchWarnings := launchWarnings m |}.

Definition set_kernelApiKey (v : option string) (m : BrowserManager) : BrowserManager :=
  {| browser := browser m; cdpEndpoint := cdpEndpoint m; isPersistentContext := isPersistentContext m;
     browserbaseSessionId := browserbaseSessionId m; browserbaseApiKey := browserbaseApiKey m;
     browserUseSessionId := browserUseSessionId m; browserUseApiKey := browserUseApiKey m;
     kernelSessionId := kernelSessionId m; kernelApiKey := v; contexts := contexts m; pages := pages m;
     activePageIndex := activePageIndex m; refMap := refMap m; lastSnapshot := lastSnapshot m;
     scopedHeaderRoutes := scopedHeaderRoutes m; cdpSession := cdpSession m; screencastActive := screencastActive m;
     frameCallback := frameCallback m; screencastFrameHandler := screencastFrameHandler m;
     recordingContext := recordingContext m; recordingPage := recordingPage m;
     recordingOutputPath := recordingOutputPath m; recordingTempDir := recordingTempDir m;
     launchWarnings := launchWarnings m |}.

Definition set_contexts (v : list BrowserContext) (m : BrowserManager) : BrowserManager :=
  {| browser := browser m; cdpEndpoint := cdpEndpoint m; isPersistentContext := isPersistentContext m;
     browserbaseSessionId := browserbaseSessionId m; browserbaseApiKey := browserbaseApiKey m;
     browserUseSessionId := browserUseSessionId m; browserUseApiKey := browserUseApiKey m;
     kernelSessionId := kernelSessionId m; kernelApiKey := kernelApiKey m; contexts := v; pages := pages m;
     activePageIndex := activePageIndex m; refMap := refMap m; lastSnapshot := lastSnapshot m;
     scopedHeaderRoutes := scopedHeaderRoutes m; cdpSession := cdpSession m; screencastActive := screencastActive m;
     frameCallback := frameCallback m; screencastFrameHandler := screencastFrameHandler m;
     recordingContext := recordingContext m; recordingPage := recordingPage m;
     recordingOutputPath := recordingOutputPath m; recordingTempDir := recordingTempDir m;
     launchWarnings := launchWarnings m |}.

Definition set_pages (v : list Page) (m : BrowserManager) : BrowserManager :=
  {| browser := browser m; cdpEndpoint := cdpEndpoint m; isPersistentContext := isPersistentContext m;
     browserbaseSessionId := browserbaseSessionId m; browserbaseApiKey := browserbaseApiKey m;
     browserUseSessionId := browserUseSessionId m; browserUseApiKey := browserUseApiKey m;
     kernelSessionId := kernelSessionId m; kernelApiKey := kernelApiKey m; contexts := contexts m; pages := v;
     activePageIndex := activePageIndex m; refMap := refMap m; lastSnapshot := lastSnapshot m;
     scopedHeaderRoutes := scopedHeaderRoutes m; cdpSession := cdpSession m; screencastActive := screencastActive m;
     frameCallback := frameCallback m; screencastFrameHandler := screencastFrameHandler m;
     recordingContext := recordingContext m; recordingPage := recordingPage m;
     recordingOutputPath := recordingOutputPath m; recordingTempDir := recordingTempDir m;
     launchWarnings := launchWarnings m |}.

Definition set_activePageIndex (v : Z) (m : BrowserManager) : BrowserManager :=
  {| browser := browser m; cdpEndpoint := cdpEndpoint m; isPersistentContext := isPersistentContext m;
     browserbaseSessionId := browserbaseSessionId m; browserbaseApiKey := browserbaseApiKey m;
     browserUseSessionId := browserUseSessionId m; browserUseApiKey := browserUseApiKey m;
     kernelSessionId := kernelSessionId m; kernelApiKey := kernelApiKey m; contexts := contexts m; pages := pages m;
     activePageIndex := v; refMap := refMap m; lastSnapshot := lastSnapshot m;
     scopedHeaderRoutes := scopedHeaderRoutes m; cdpSession := cdpSession m; screencastActive := screencastActive m;
     frameCallback := frameCallback m; screencastFrameHandler := screencastFrameHandler m;
     recordingContext := recordingContext m; recordingPage := recordingPage m;
     recordingOutputPath := recordingOutputPath m; recordingTempDir := recordingTempDir m;
     launchWarnings := launchWarnings m |}.

Definition set_refMap (v : RefMap) (m : BrowserManager) : BrowserManager :=
  {| browser := browser m; cdpEndpoint := cdpEndpoint m; isPersistentContext := isPersistentContext m;
     browserbaseSessionId := browserbaseSessionId m; browserbaseApiKey := browserbaseApiKey m;
     browserUseSessionId := browserUseSessionId m; browserUseApiKey := browserUseApiKey m;
     kernelSessionId := kernelSessionId m; kernelApiKey := kernelApiKey m; contexts := contexts m; pages := pages m;
     activePageIndex := activePageIndex m; refMap := v; lastSnapshot := lastSnapshot m;
     scopedHeaderRoutes := scopedHeaderRoutes m; cdpSession := cdpSession m; screencastActive := screencastActive m;
     frameCallback := frameCallback m; screencastFrameHandler := screencastFrameHandler m;
     recordingContext := recordingContext m; recordingPage := recordingPage m;
     recordingOutputPath := recordingOutputPath m; recordingTempDir := recordingTempDir m;
     launchWarnings := launchWarnings m |}.

Definition set_lastSnapshot (v : string) (m : BrowserManager) : BrowserManager :=
  {| browser := browser m; cdpEndpoint := cdpEndpoint m; isPersistentContext := isPersistentContext m;
     browserbaseSessionId := browserbaseSessionId m; browserbaseApiKey := browserbaseApiKey m;
     browserUseSessionId := browserUseSessionId m; browserUseApiKey := browserUseApiKey m;
     kernelSessionId := kernelSessionId m; kernelApiKey := kernelApiKey m; contexts := contexts m; pages := pages m;
     activePageIndex := activePageIndex m; refMap := refMap m; lastSnapshot := v;
     scopedHeaderRoutes := scopedHeaderRoutes m; cdpSession := cdpSession m; screencastActive := screencastActive m;
     frameCallback := frameCallback m; screencastFrameHandler := screencastFrameHandler m;
     recordingContext := recordingContext m; recordingPage := recordingPage m;
     recordingOutputPath := recordingOutputPath m; recordingTempDir := recordingTempDir m;
     launchWarnings := launchWarnings m |}.

Definition set_scopedHeaderRoutes (v : list (string * RouteHandler)) (m : BrowserManager) : BrowserManager :=
  {| browser := browser m; cdpEndpoint := cdpEndpoint m; isPersistentContext := isPersistentContext m;
     browserbaseSessionId := browserbaseSessionId m; browserbaseApiKey := browserbaseApiKey m;
     browserUseSessionId := browserUseSessionId m; browserUseApiKey := browserUseApiKey m;
     kernelSessionId := kernelSessionId m; kernelApiKey := kernelApiKey m; contexts := contexts m; pages := pages m;
     activePageIndex := activePageIndex m; refMap := refMap m; lastSnapshot := lastSnapshot m;
     scopedHeaderRoutes := v; cdpSession := cdpSession m; screencastActive := screencastActive m;
     frameCallback := frameCallback m; screencastFrameHandler := screencastFrameHandler m;
     recordingContext := recordingContext m; recordingPage := recordingPage m;
     recordingOutputPath := recordingOutputPath m; recordingTempDir := recordingTempDir m;
     launchWarnings := launchWarnings m |}.

Definition set_cdpSession (v : option CDPSession) (m : BrowserManager) : BrowserManager :=
  {| browser := browser m; cdpEndpoint := cdpEndpoint m; isPersistentContext := isPersistentContext m;
     browserbaseSessionId := browserbaseSessionId m; browserbaseApiKey := browserbaseApiKey m;
     browserUseSessionId := browserUseSessionId m; browserUseApiKey := browserUseApiKey m;
     kernelSessionId := kernelSessionId m; kernelApiKey := kernelApiKey m; contexts := contexts m; pages := pages m;
     activePageIndex := activePageIndex m; refMap := refMap m; lastSnapshot := lastSnapshot m;
     scopedHeaderRoutes := scopedHeaderRoutes m; cdpSession := v; screencastActive := screencastActive m;
     frameCallback := frameCallback m; screencastFrameHandler := screencastFrameHandler m;
     recordingContext := recordingContext m; recordingPage := recordingPage m;
     recordingOutputPath := recordingOutputPath m; recordingTempDir := recordingTempDir m;
     launchWarnings := launchWarnings m |}.

Definition set_screencastActive (v : bool) (m : BrowserManager) : BrowserManager :=
  {| browser := browser m; cdpEndpoint := cdpEndpoint m; isPersistentContext := isPersistentContext m;
     browserbaseSessionId := browserbaseSessionId m; browserbaseApiKey := browserbaseApiKey m;
     browserUseSessionId := browserUseSessionId m; browserUseApiKey := browserUseApiKey m;
     kernelSessionId := kernelSessionId m; kernelApiKey := kernelApiKey m; contexts := contexts m; pages := pages m;
     activePageIndex := activePageIndex m; refMap := refMap m; lastSnapshot := lastSnapshot m;
     scopedHeaderRoutes := scopedHeaderRoutes m; cdpSession := cdpSession m; screencastActive := v;
     frameCallback := frameCallback m; screencastFrameHandler := screencastFrameHandler m;
     recordingContext := recordingContext m; recordingPage := recordingPage m;
     recordingOutputPath := recordingOutputPath m; recordingTempDir := recordingTempDir m;
     launchWarnings := launchWarnings m |}.

Definition set_frameCallback (v : option FrameCallback) (m : BrowserManager) : BrowserManager :=
  {| browser := browser m; cdpEndpoint := cdpEndpoint m; isPersistentContext := isPersistentContext m;
     browserbaseSessionId := browserbaseSessionId m; browserbaseApiKey := browserbaseApiKey m;
     browserUseSessionId := browserUseSessionId m; browserUseApiKey := browserUseApiKey m;
     kernelSessionId := kernelSessionId m; kernelApiKey := kernelApiKey m; contexts := contexts m; pages := pages m;
     activePageIndex := activePageIndex m; refMap := refMap m; lastSnapshot := lastSnapshot m;
     scopedHeaderRoutes := scopedHeaderRoutes m; cdpSession := cdpSession m; screencastActive := screencastActive m;
     frameCallback := v; screencastFrameHandler := screencastFrameHandler m; recordingContext := recordingContext m;
     recordingPage := recordingPage m; recordingOutputPath := recordingOutputPath m;
     recordingTempDir := recordingTempDir m; launchWarnings := launchWarnings m |}.

Definition set_screencastFrameHandler (v : option FrameHandler) (m : BrowserManager) : BrowserManager :=
  {| browser := browser m; cdpEndpoint := cdpEndpoint m; isPersistentContext := isPersistentContext m;
     browserbaseSessionId := browserbaseSessionId m; browserbaseApiKey := browserbaseApiKey m;
     browserUseSessionId := browserUseSessionId m; browserUseApiKey := browserUseApiKey m;
     kernelSessionId := kernelSessionId m; kernelApiKey := kernelApiKey m; contexts := contexts m; pages := pages m;
     activePageIndex := activePageIndex m; refMap := refMap m; lastSnapshot := lastSnapshot m;
     scopedHeaderRoutes := scopedHeaderRoutes m; cdpSession := cdpSession m; screencastActive := screencastActive m;
     frameCallback := frameCallback m; screencastFrameHandler := v; recordingContext := recordingContext m;
     recordingPage := recordingPage m; recordingOutputPath := recordingOutputPath m;
     recordingTempDir := recordingTempDir m; launchWarnings := launchWarnings m |}.

Definition set_recordingContext (v : option BrowserContext) (m : BrowserManager) : BrowserManager :=
  {| browser := browser m; cdpEndpoint := cdpEndpoint m; isPersistentContext := isPersistentContext m;
     browserbaseSessionId := browserbaseSessionId m; browserbaseApiKey := browserbaseApiKey m;
     browserUseSessionId := browserUseSessionId m; browserUseApiKey := browserUseApiKey m;
     kernelSessionId := kernelSessionId m; kernelApiKey := kernelApiKey m; contexts := contexts m; pages := pages m;
     activePageIndex := activePageIndex m; refMap := refMap m; lastSnapshot := lastSnapshot m;
     scopedHeaderRoutes := scopedHeaderRoutes m; cdpSession := cdpSession m; screencastActive := screencastActive m;
     frameCallback := frameCallback m; screencastFrameHandler := screencastFrameHandler m; recordingContext := v;
     recordingPage := recordingPage m; recordingOutputPath := recordingOutputPath m;
     recordingTempDir := recordingTempDir m; launchWarnings := launchWarnings m |}.

Definition set_recordingPage (v : option Page) (m : BrowserManager) : BrowserManager :=
  {| browser := browser m; cdpEndpoint := cdpEndpoint m; isPersistentContext := isPersistentContext m;
     browserbaseSessionId := browserbaseSessionId m; browserbaseApiKey := browserbaseApiKey m;
     browserUseSessionId := browserUseSessionId m; browserUseApiKey := browserUseApiKey m;
     kernelSessionId := kernelSessionId m; kernelApiKey := kernelApiKey m; contexts := contexts m; pages := pages m;
     activePageIndex := activePageIndex m; refMap := refMap m; lastSnapshot := lastSnapshot m;
     scopedHeaderRoutes := scopedHeaderRoutes m; cdpSession := cdpSession m; screencastActive := screencastActive m;
     frameCallback := frameCallback m; screencastFrameHandler := screencastFrameHandler m;
     recordingContext := recordingContext m; recordingPage := v; recordingOutputPath := recordingOutputPath m;
     recordingTempDir := recordingTempDir m; launchWarnings := launchWarnings m |}.

Definition set_recordingOutputPath (v : string) (m : BrowserManager) : BrowserManager :=
  {| browser := browser m; cdpEndpoint := cdpEndpoint m; isPersistentContext := isPersistentContext m;
     browserbaseSessionId := browserbaseSessionId m; browserbaseApiKey := browserbaseApiKey m;
     browserUseSessionId := browserUseSessionId m; browserUseApiKey := browserUseApiKey m;
     kernelSessionId := kernelSessionId m; kernelApiKey := kernelApiKey m; contexts := contexts m; pages := pages m;
     activePageIndex := activePageIndex m; refMap := refMap m; lastSnapshot := lastSnapshot m;
     scopedHeaderRoutes := scopedHeaderRoutes m; cdpSession := cdpSession m; screencastActive := screencastActive m;
     frameCallback := frameCallback m; screencastFrameHandler := screencastFrameHandler m;
     recordingContext := recordingContext m; recordingPage := recordingPage m; recordingOutputPath := v;
     recordingTempDir := recordingTempDir m; launchWarnings := launchWarnings m |}.

Definition set_recordingTempDir (v : string) (m : BrowserManager) : BrowserManager :=
  {| browser := browser m; cdpEndpoint := cdpEndpoint m; isPersistentContext := isPersistentContext m;
     browserbaseSessionId := browserbaseSessionId m; browserbaseApiKey := browserbaseApiKey m;
     browserUseSessionId := browserUseSessionId m; browserUseApiKey := browserUseApiKey m;
     kernelSessionId := kernelSessionId m; kernelApiKey := kernelApiKey m; contexts := contexts m; pages := pages m;
     activePageIndex := activePageIndex m; refMap := refMap m; lastSnapshot := lastSnapshot m;
     scopedHeaderRoutes := scopedHeaderRoutes m; cdpSession := cdpSession m; screencastActive := screencastActive m;
     frameCallback := frameCallback m; screencastFrameHandler := screencastFrameHandler m;
     recordingContext := recordingContext m; recordingPage := recordingPage m;
     recordingOutputPath := recordingOutputPath m; recordingTempDir := v; launchWarnings := launchWarnings m |}.

Definition set_launchWarnings (v : list string) (m : BrowserManager) : BrowserManager :=
  {| browser := browser m; cdpEndpoint := cdpEndpoint m; isPersistentContext := isPersistentContext m;
     browserbaseSessionId := browserbaseSessionId m; browserbaseApiKey := browserbaseApiKey m;
     browserUseSessionId := browserUseSessionId m; browserUseApiKey := browserUseApiKey m;
     kernelSessionId := kernelSessionId m; kernelApiKey := kernelApiKey m; contexts := contexts m; pages := pages m;
     activePageIndex := activePageIndex m; refMap := refMap m; lastSnapshot := lastSnapshot m;
     scopedHeaderRoutes := scopedHeaderRoutes m; cdpSession := cdpSession m; screencastActive := screencastActive m;
     frameCallback := frameCallback m; screencastFrameHandler := screencastFrameHandler m;
     recordingContext := recordingContext m; recordingPage := recordingPage m;
     recordingOutputPath := recordingOutputPath m; recordingTempDir := recordingTempDir m; launchWarnings := v |}.

(** ** The collaborators: browser engine, file system, network *)

Inductive BrowserType := chromium | firefox | webkit.

(** [{ width, height }] *)
Definition Viewport := (Z * Z)%type.

(** A storage state handed to the engine: the path of a state file, or a
    state document (cookies and origins), whose content the manager never
    reads. *)
Inductive StorageState := StorageStatePath (path : string) | StorageStateObject.

(** The requests the manager sends to its collaborators. *)
Inductive Call :=
  | LauncherLaunch (kind : BrowserType) (args : option (list string))
  | LauncherLaunchPersistentContext (kind : BrowserType) (userDataDir : string)
                                    (args : option (list string)) (viewport : option Viewport)
  | ConnectOverCDP (url : string)
  | BrowserIsConnected (b : Browser)
  | BrowserContexts (b : Browser)
  | BrowserNewContext (b : Browser) (viewport : option (option Viewport))
                      (storageState : option StorageState) (recordVideoDir : option string)
  | BrowserClose (b : Browser)
  | ContextSetDefaultTimeout (c : BrowserContext) (ms : Z)
  | ContextOn (c : BrowserContext) (event : string)
  | ContextPages (c : BrowserContext)
  | ContextNewPage (c : BrowserContext)
  | ContextStorageState (c : BrowserContext)
  | ContextNewCDPSession (c : BrowserContext) (p : Page)
  | ContextClose (c : BrowserContext)
  | PageOn (p : Page) (event : string)
  | PageContext (p : Page)
  | PageUrl (p : Page)
  | PageVideo (p : Page)
  | PageGoto (p : Page) (url : string)
  | PageRoute (p : Page) (pattern : string) (h : RouteHandler)
  | PageUnroute (p : Page) (pattern : string) (h : RouteHandler)
  | PageClose (p : Page)
  | VideoSaveAs (v : Video) (path : string)
  | CdpOn (s : CDPSession) (event : string) (h : FrameHandler)
  | CdpOff (s : CDPSession) (event : string) (h : FrameHandler)
  | CdpSend (s : CDPSession) (method : string)
  | CdpStartScreencast (s : CDPSession) (format : string)
                       (quality maxWidth maxHeight everyNthFrame : Z)
  | CdpDetach (s : CDPSession)
  | MkdirSync (path : string)
  | RmSync (path : string)
  | ReadStateFile (path : string)
  | GetEncryptionKey
  | DecryptData
  | ReadDevToolsActivePort (path : string)
  | Fetch (method url : string)
  | ResponseJson
  | DateNow
  | GetEnhancedSnapshot (p : Page).

(** What a collaborator answers: it fails (the call throws, the promise is
    rejected) or it returns.  A returned value is read as the request needs
    it: the handles of the objects returned (one, several, or none for
    [null] and [false]) and the strings returned. *)
Inductive Answer :=
  | Fails (message : string)
  | Returns (handles : list nat) (texts : list string).

Record Reply := mkReply { handles : list nat; texts : list string }.

Definition handle (r : Reply) : nat := hd 0 (handles r).
Definition flag (r : Reply) : bool := match handles r with [] => false | _ => true end.
Definition text (r : Reply) : string := hd "" (texts r).

Record Engine := mkEngine {
  (** the answer to the n-th request *)
  oracle : nat -> Answer;
  (** whether the event the n-th request causes ('close' of a closed page,
      'page' of a context that got a new page) reaches its listener before
      the request returns *)
  eager : nat -> bool;
  (** number of requests so far *)
  asked : nat;
  (** the requests so far, oldest first *)
  calls : list Call;
  (** the paths that exist on disk *)
  files : list string;
  (** the interception rules registered on each page, newest first *)
  routes : list (Page * string * RouteHandler);
  (** [process.env] *)
  env : list (string * string);
  (** [new URL(s).host]; [None] when the constructor throws *)
  url_host : string -> option string;
  platform : string;
  homedir : string;
  tmpdir : string;
  (** the constant [ENCRYPTION_KEY_ENV] of [state-utils.js], which is not
      among the sources *)
  encryption_key_env : string;
}.

Definition set_asked (n : nat) (e : Engine) : Engine :=
  {| oracle := oracle e; eager := eager e; asked := n; calls := calls e; files := files e;
     routes := routes e; env := env e; url_host := url_host e; platform := platform e;
     homedir := homedir e; tmpdir := tmpdir e; encryption_key_env := encryption_key_env e |}.

Definition set_calls (l : list Call) (e : Engine) : Engine :=
  {| oracle := oracle e; eager := eager e; asked := asked e; calls := l; files := files e;
     routes := routes e; env := env e; url_host := url_host e; platform := platform e;
     homedir := homedir e; tmpdir := tmpdir e; encryption_key_env := encryption_key_env e |}.

Definition set_files (l : list string) (e : Engine) : Engine :=
  {| oracle := oracle e; eager := eager e; asked := asked e; calls := calls e; files := l;
     routes := routes e; env := env e; url_host := url_host e; platform := platform e;
     homedir := homedir e; tmpdir := tmpdir e; encryption_key_env := encryption_key_env e |}.

Definition set_routes (l : list (Page * string * RouteHandler)) (e : Engine) : Engine :=
  {| oracle := oracle e; eager := eager e; asked := asked e; calls := calls e; files := files e;
     routes := l; env := env e; url_host := url_host e; platform := platform e;
     homedir := homedir e; tmpdir := tmpdir e; encryption_key_env := encryption_key_env e |}.

(** The manager, its collaborators, and the number of closures the manager
    has created (the identity of the next one). *)
Record World := mkWorld {
  this : BrowserManager;
  engine : Engine;
  closures : nat;
}.

(** ** Statements that may throw *)

Inductive Outcome (A : Type) :=
  | Ok (a : A)
  | Throw (message : string).
Arguments Ok {A} a.
Arguments Throw {A} message.

Definition M (A : Type) : Type := World -> Outcome A * World.

Definition ret {A} (a : A) : M A := fun w => (Ok a, w).

Definition throw {A} (message : string) : M A := fun w => (Throw message, w).

Definition bind {A B} (c : M A) (k : A -> M B) : M B :=
  fun w => match c w with
           | (Ok a, w') => k a w'
           | (Throw e, w') => (Throw e, w')
           end.

(** [try { c } catch (error) { h(error.message) }] *)
Definition try_catch {A} (c : M A) (h : string -> M A) : M A :=
  fun w => match c w with
           | (Ok a, w') => (Ok a, w')
           | (Throw e, w') => h e w'
           end.

Declare Scope js_scope.
Delimit Scope js_scope with js.
Notation "x <- c ;; k" := (bind c (fun x => k))
  (at level 100, c at next level, right associativity) : js_scope.
Notation "c ;; k" := (bind c (fun _ => k))
  (at level 100, right associativity) : js_scope.
Local Open Scope js_scope.

(** [promise.catch(() => {})] *)
Definition swallow {A} (c : M A) : M unit := try_catch (c ;; ret tt) (fun _ => ret tt).

(** [if (cond) { c }] *)
Definition when (cond : bool) (c : M unit) : M unit := if cond then c else ret tt.

(** [this.f] and [this.f = v] *)
Definition read {A} (f : BrowserManager -> A) : M A := fun w => (Ok (f (this w)), w).

Definition assign (f : BrowserManager -> BrowserManager) : M unit :=
  fun w => (Ok tt, {| this := f (this w); engine := engine w; closures := closures w |}).

(** What the collaborators hold, and a change to it. *)
Definition ask {A} (f : Engine -> A) : M A := fun w => (Ok (f (engine w)), w).

Definition tell (f : Engine -> Engine) : M unit :=
  fun w => (Ok tt, {| this := this w; engine := f (engine w); closures := closures w |}).

(** A request that may fail: it is logged, and its answer is the oracle's. *)
Definition request (c : Call) : M Reply :=
  fun w =>
    let e := engine w in
    let w' := {| this := this w;
                 engine := set_asked (S (asked e)) (set_calls (calls e ++ [c]) e);
                 closures := closures w |} in
    match oracle e (asked e) with
    | Fails message => (Throw message, w')
    | Returns hs ts => (Ok (mkReply hs ts), w')
    end.

(** A synchronous getter, which does not throw: a failing answer reads as
    [null], [false] or the empty string. *)
Definition query (c : Call) : M Reply :=
  try_catch (request c) (fun _ => ret (mkReply [] [])).

(** A call with no answer to wait for (registering a listener, setting a
    default): it is logged. *)
Definition notify (c : Call) : M unit :=
  tell (fun e => set_calls (calls e ++ [c]) e).

(** Whether the event caused by the request just sent is delivered before
    the request returns. *)
Definition delivered_early : M bool :=
  ask (fun e => eager e (pred (asked e))).

(** A new closure: its identity. *)
Definition new_closure : M nat :=
  fun w => (Ok (closures w),
            {| this := this w; engine := engine w; closures := S (closures w) |}).

(** A method call on a value that may be [undefined]. *)
Definition deref {A} (o : option A) : M A :=
  match o with
  | Some a => ret a
  | None => throw "TypeError: Cannot read properties of undefined"
  end.

(** [process.env.NAME] *)
Definition getenv (name : string) : M (option string) := ask (fun e => map_get name (env e)).

(** [existsSync], [mkdirSync(path, { recursive: true })] and
    [rmSync(path, { recursive: true, force: true })] on the modelled disk,
    which does not fail. *)
Definition existsSync (path : string) : M bool :=
  ask (fun e => existsb (String.eqb path) (files e)).

Definition mkdirSync (path : string) : M unit :=
  notify (MkdirSync path) ;;
  tell (fun e => if existsb (String.eqb path) (files e) then e
                 else set_files (path :: files e) e).

Definition rmSync (path : string) : M unit :=
  notify (RmSync path) ;;
  tell (fun e => set_files (List.filter (fun f => negb (String.eqb path f)) (files e)) e).

(** [path.join(a, b)] for two plain segments *)
Definition path_join (a b : string) : string := a +:+ "/" +:+ b.

(** ** The manager's methods

    Each definition follows the method of the same name statement by
    statement; the numbers are the lines of the class in the source. *)

Definition is_set {A} (o : option A) : bool :=
  match o with Some _ => true | None => false end.

Definition get_this : M BrowserManager := read (fun m => m).

Definition double_quote : string := String (Ascii.ascii_of_nat 34) EmptyString.

(** 117: [getAndClearWarnings] *)
Definition getAndClearWarnings : M (list string) :=
  warnings <- read launchWarnings ;;
  assign (set_launchWarnings []) ;;
  ret warnings.

(** 126: [isLaunched] *)
Definition isLaunched (m : BrowserManager) : bool :=
  is_set (browser m) || isPersistentContext m.

(** 213: [hasPages] *)
Definition hasPages (m : BrowserManager) : bool := (0 <? length (pages m))%nat.

(** 250: [getPage].  The result is [undefined] when the active index is
    outside the array. *)
Definition getPage : M (option Page) :=
  m <- get_this ;;
  if (length (pages m) =? 0)%nat then throw "Browser not launched. Call launch first."
  else ret (at_index (pages m) (activePageIndex m)).

(** 1549: the listener [page.on('close', ...)] of [setupPageTracking] *)
Definition on_page_close (page : Page) : M unit :=
  ps <- read pages ;;
  let index := indexOf page ps in
  when (negb (index =? -1)%Z)
    (assign (fun m => set_pages (splice1 index (pages m)) m) ;;
     m <- get_this ;;
     when (activePageIndex m >=? Z.of_nat (length (pages m)))%Z
       (assign (fun m => set_activePageIndex
                           (Z.max 0 (Z.of_nat (length (pages m)) - 1)) m))).

(** 1533: [setupPageTracking].  The console and error listeners fill
    message buffers that no other method reads. *)
Definition setupPageTracking (page : Page) : M unit :=
  notify (PageOn page "console") ;;
  notify (PageOn page "pageerror") ;;
  notify (PageOn page "close").

(** Whether a listener was registered: [page.on('close', ...)] on a page,
    [context.on('page', ...)] on a context. *)
Definition listens_close (page : Page) (e : Engine) : bool :=
  existsb (fun c => match c with
                    | PageOn p ev => (p =? page)%nat && String.eqb ev "close"
                    | _ => false
                    end) (calls e).

Definition listens_page (context : BrowserContext) (e : Engine) : bool :=
  existsb (fun c => match c with
                    | ContextOn c' ev => (c' =? context)%nat && String.eqb ev "page"
                    | _ => false
                    end) (calls e).

(** [await page.close()]: the engine may emit 'close' before the promise
    resolves. *)
Definition page_close (page : Page) : M unit :=
  request (PageClose page) ;;
  early <- delivered_early ;;
  listening <- ask (listens_close page) ;;
  when (early && listening) (on_page_close page).

(** 1729: [getCDPSession] *)
Definition getCDPSession : M CDPSession :=
  session <- read cdpSession ;;
  match session with
  | Some s => ret s
  | None =>
      page <- getPage ;;
      p <- deref page ;;
      context <- query (PageContext p) ;;
      r <- request (ContextNewCDPSession (handle context) p) ;;
      assign (set_cdpSession (Some (handle r))) ;;
      ret (handle r)
  end.

(** 1799: [stopScreencast] *)
Definition stopScreencast : M unit :=
  active <- read screencastActive ;;
  if negb active then ret tt
  else
    try_catch
      (cdp <- getCDPSession ;;
       request (CdpSend cdp "Page.stopScreencast") ;;
       h <- read screencastFrameHandler ;;
       match h with
       | Some h => notify (CdpOff cdp "Page.screencastFrame" h)
       | None => ret tt
       end)
      (fun _ => ret tt) ;;
    assign (set_screencastActive false) ;;
    assign (set_frameCallback None) ;;
    assign (set_screencastFrameHandler None).

(** 1641: [invalidateCDPSession] *)
Definition invalidateCDPSession : M unit :=
  active <- read screencastActive ;;
  when active stopScreencast ;;
  session <- read cdpSession ;;
  match session with
  | Some s => swallow (request (CdpDetach s)) ;; assign (set_cdpSession None)
  | None => ret tt
  end.

(** 1565: the listener [context.on('page', ...)] of [setupContextTracking].
    The promise of [invalidateCDPSession] is not awaited there; it is run
    to its end here, errors dropped. *)
Definition on_context_page (page : Page) : M unit :=
  ps <- read pages ;;
  when (negb (includes page ps))
    (assign (fun m => set_pages (push page (pages m)) m) ;;
     setupPageTracking page) ;;
  m <- get_this ;;
  let newIndex := indexOf page (pages m) in
  when (negb (newIndex =? -1)%Z && negb (newIndex =? activePageIndex m)%Z)
    (assign (set_activePageIndex newIndex) ;;
     swallow invalidateCDPSession).

(** 1564: [setupContextTracking] *)
Definition setupContextTracking (context : BrowserContext) : M unit :=
  notify (ContextOn context "page").

(** [await context.newPage()]: a context with a 'page' listener may have it
    run before the promise resolves. *)
Definition context_newPage (context : BrowserContext) : M Page :=
  r <- request (ContextNewPage context) ;;
  early <- delivered_early ;;
  listening <- ask (listens_page context) ;;
  when (early && listening) (on_context_page (handle r)) ;;
  ret (handle r).

(** The statements that follow every awaited [newPage] in the class:
    [if (!this.pages.includes(page)) { this.pages.push(page);
    this.setupPageTracking(page); }] *)
Definition track_if_new (page : Page) : M unit :=
  ps <- read pages ;;
  when (negb (includes page ps))
    (assign (fun m => set_pages (push page (pages m)) m) ;;
     setupPageTracking page).

(** [this.activePageIndex = this.pages.length - 1] *)
Definition activate_last : M unit :=
  assign (fun m => set_activePageIndex (Z.of_nat (length (pages m)) - 1) m).

(** 222: [ensurePage] *)
Definition ensurePage : M unit :=
  m <- get_this ;;
  if (0 <? length (pages m))%nat then ret tt
  else if negb (is_set (browser m)) && negb (isPersistentContext m) then ret tt
  else
    let create_on (context : BrowserContext) : M unit :=
      page <- context_newPage context ;;
      track_if_new page ;;
      activate_last in
    if (0 <? length (contexts m))%nat then
      context <- deref (at_index (contexts m) (Z.of_nat (length (contexts m)) - 1)) ;;
      create_on context
    else
      match browser m with
      | Some b =>
          r <- request (BrowserNewContext b None None None) ;;
          let context := handle r in
          notify (ContextSetDefaultTimeout context 60000) ;;
          assign (fun m => set_contexts (push context (contexts m)) m) ;;
          setupContextTracking context ;;
          create_on context
      | None => ret tt
      end.

(** 1588: [newTab] *)
Definition newTab : M (Z * nat) :=
  m <- get_this ;;
  if negb (is_set (browser m)) || (length (contexts m) =? 0)%nat then
    throw "Browser not launched"
  else
    invalidateCDPSession ;;
    cs <- read contexts ;;
    context <- deref (at_index cs 0) ;;
    page <- context_newPage context ;;
    track_if_new page ;;
    activate_last ;;
    m <- get_this ;;
    ret (activePageIndex m, length (pages m)).

(** 1611: [newWindow] *)
Definition newWindow (viewport : option (option Viewport)) : M (Z * nat) :=
  b <- read browser ;;
  match b with
  | None => throw "Browser not launched"
  | Some b =>
      r <- request (BrowserNewContext b (Some (default (Some (1280, 720)%Z) viewport))
                                      None None) ;;
      let context := handle r in
      notify (ContextSetDefaultTimeout context 60000) ;;
      assign (fun m => set_contexts (push context (contexts m)) m) ;;
      setupContextTracking context ;;
      page <- context_newPage context ;;
      track_if_new page ;;
      activate_last ;;
      m <- get_this ;;
      ret (activePageIndex m, length (pages m))
  end.

(** 1657: [switchTo] *)
Definition switchTo (index : Z) : M (Z * string * string) :=
  m <- get_this ;;
  if (index <? 0)%Z || (index >=? Z.of_nat (length (pages m)))%Z then
    throw ("Invalid tab index: " +:+ pretty index +:+ ". Available: 0-"
           +:+ pretty (Z.of_nat (length (pages m)) - 1)%Z)
  else
    when (negb (index =? activePageIndex m)%Z) invalidateCDPSession ;;
    assign (set_activePageIndex index) ;;
    ps <- read pages ;;
    page <- deref (at_index ps index) ;;
    url <- query (PageUrl page) ;;
    active <- read activePageIndex ;;
    ret (active, text url, "").

Definition last_tab_error : string :=
  "Cannot close the last tab. Use " +:+ double_quote +:+ "close" +:+ double_quote
  +:+ " to close the browser.".

(** 1680: [closeTab] *)
Definition closeTab (index : option Z) : M (Z * nat) :=
  m <- get_this ;;
  let targetIndex := default (activePageIndex m) index in
  if (targetIndex <? 0)%Z || (targetIndex >=? Z.of_nat (length (pages m)))%Z then
    throw ("Invalid tab index: " +:+ pretty targetIndex)
  else if (length (pages m) =? 1)%nat then throw last_tab_error
  else
    when (targetIndex =? activePageIndex m)%Z invalidateCDPSession ;;
    ps <- read pages ;;
    page <- deref (at_index ps targetIndex) ;;
    page_close page ;;
    assign (fun m => set_pages (splice1 targetIndex (pages m)) m) ;;
    m <- get_this ;;
    (if (activePageIndex m >=? Z.of_nat (length (pages m)))%Z then
       assign (fun m => set_activePageIndex (Z.of_nat (length (pages m)) - 1) m)
     else
       when (activePageIndex m >? targetIndex)%Z
         (assign (fun m => set_activePageIndex (activePageIndex m - 1) m))) ;;
    ps <- read pages ;;
    ret (targetIndex, length ps).

(** [ScreencastOptions] *)
Record ScreencastOptions := mkScreencastOptions {
  format : option string;
  quality : option Z;
  maxWidth : option Z;
  maxHeight : option Z;
  everyNthFrame : option Z;
}.

(** 1754: [startScreencast].  [options] is [None] when the argument is
    left out. *)
Definition startScreencast (callback : FrameCallback) (options : option ScreencastOptions)
  : M unit :=
  active <- read screencastActive ;;
  if active then throw "Screencast already active"
  else
    cdp <- getCDPSession ;;
    assign (set_frameCallback (Some callback)) ;;
    assign (set_screencastActive true) ;;
    h <- new_closure ;;
    assign (set_screencastFrameHandler (Some h)) ;;
    notify (CdpOn cdp "Page.screencastFrame" h) ;;
    request (CdpStartScreencast cdp
               (default "jpeg" (options ≫= format))
               (default 80%Z (options ≫= quality))
               (default 1280%Z (options ≫= maxWidth))
               (default 720%Z (options ≫= maxHeight))
               (default 1%Z (options ≫= everyNthFrame))) ;;
    ret tt.

(** 1902: [isRecording] *)
Definition isRecording (m : BrowserManager) : bool := is_set (recordingContext m).

(** [process.env.AGENT_BROWSER_SESSION || 'default'] *)
Definition session_name : M string :=
  s <- getenv "AGENT_BROWSER_SESSION" ;;
  ret (if truthy s then default "" s else "default").

Definition recording_in_progress_error : string :=
  "Recording already in progress. Run 'record stop' first, or use 'record restart' to stop and start a new recording.".

Definition browser_not_launched_error : string := "Browser not launched. Call launch first.".

Definition webm_only_error : string :=
  "Playwright native recording only supports WebM format. Please use a .webm extension.".

(** 1914: [startRecording] *)
Definition startRecording (outputPath : string) (url : option string) : M unit :=
  m <- get_this ;;
  if is_set (recordingContext m) then throw recording_in_progress_error
  else
    match browser m with
    | None => throw browser_not_launched_error
    | Some b =>
        present <- existsSync outputPath ;;
        if present then throw ("Output file already exists: " +:+ outputPath)
        else if negb (endsWith outputPath ".webm") then throw webm_only_error
        else
          let currentPage :=
            if (0 <? length (pages m))%nat then at_index (pages m) (activePageIndex m)
            else None in
          let currentContext :=
            if (0 <? length (contexts m))%nat then at_index (contexts m) 0 else None in
          url <- match currentPage with
                 | Some page =>
                     if negb (truthy url) then
                       currentUrl <- query (PageUrl page) ;;
                       ret (if truthy_string (text currentUrl)
                               && negb (String.eqb (text currentUrl) "about:blank")
                            then Some (text currentUrl) else url)
                     else ret url
                 | None => ret url
                 end ;;
          storageState <- match currentContext with
                          | Some context =>
                              try_catch (request (ContextStorageState context) ;;
                                         ret (Some StorageStateObject))
                                        (fun _ => ret None)
                          | None => ret None
                          end ;;
          session <- session_name ;;
          now <- query DateNow ;;
          tmp <- ask tmpdir ;;
          assign (set_recordingTempDir
                    (path_join tmp ("agent-browser-recording-" +:+ session +:+ "-"
                                    +:+ text now))) ;;
          dir <- read recordingTempDir ;;
          mkdirSync dir ;;
          assign (set_recordingOutputPath outputPath) ;;
          r <- request (BrowserNewContext b (Some (Some (1280, 720)%Z)) storageState
                                          (Some dir)) ;;
          assign (set_recordingContext (Some (handle r))) ;;
          notify (ContextSetDefaultTimeout (handle r) 10000) ;;
          page <- context_newPage (handle r) ;;
          assign (set_recordingPage (Some page)) ;;
          assign (fun m => set_contexts (push (handle r) (contexts m)) m) ;;
          assign (fun m => set_pages (push page (pages m)) m) ;;
          activate_last ;;
          setupPageTracking page ;;
          invalidateCDPSession ;;
          when (truthy url) (request (PageGoto page (default "" url)) ;; ret tt)
    end.

(** The value [stopRecording] resolves to. *)
Record RecordingResult := mkRecordingResult {
  path : string;
  frames : Z;
  error : option string;
}.

(** The four assignments that end both branches of [stopRecording]. *)
Definition reset_recording_state : M unit :=
  assign (set_recordingContext None) ;;
  assign (set_recordingPage None) ;;
  assign (set_recordingOutputPath "") ;;
  assign (set_recordingTempDir "").

(** 2021: [stopRecording] *)
Definition stopRecording : M RecordingResult :=
  m <- get_this ;;
  match recordingContext m, recordingPage m with
  | Some context, Some page =>
      let outputPath := recordingOutputPath m in
      try_catch
        (video <- query (PageVideo page) ;;
         ps <- read pages ;;
         let pageIndex := indexOf page ps in
         when (negb (pageIndex =? -1)%Z)
           (assign (fun m => set_pages (splice1 pageIndex (pages m)) m)) ;;
         cs <- read contexts ;;
         let contextIndex := indexOf context cs in
         when (negb (contextIndex =? -1)%Z)
           (assign (fun m => set_contexts (splice1 contextIndex (contexts m)) m)) ;;
         page_close page ;;
         match handles video with
         | v :: _ => request (VideoSaveAs v outputPath) ;; ret tt
         | [] => ret tt
         end ;;
         dir <- read recordingTempDir ;;
         when (truthy_string dir) (rmSync dir) ;;
         request (ContextClose context) ;;
         reset_recording_state ;;
         m <- get_this ;;
         (if (0 <? length (pages m))%nat then
            assign (fun m => set_activePageIndex
                               (Z.min (activePageIndex m) (Z.of_nat (length (pages m)) - 1)) m)
          else assign (set_activePageIndex 0)) ;;
         invalidateCDPSession ;;
         ret {| path := outputPath; frames := 0; error := None |})
        (fun message =>
           dir <- read recordingTempDir ;;
           when (truthy_string dir) (rmSync dir) ;;
           reset_recording_state ;;
           ret {| path := outputPath; frames := 0; error := Some message |})
  | _, _ => ret {| path := ""; frames := 0; error := Some "No recording in progress" |}
  end.

(** 2100: [restartRecording] *)
Definition restartRecording (outputPath : string) (url : option string)
  : M (option string * bool) :=
  recording <- read recordingContext ;;
  previous <- (if is_set recording then
                 result <- stopRecording ;;
                 ret (Some (path result), true)
               else ret (None, false)) ;;
  startRecording outputPath url ;;
  ret previous.

(** 754, 766, 784: the three session teardown requests *)
Definition closeBrowserbaseSession (sessionId apiKey : string) : M unit :=
  request (Fetch "DELETE" ("https://api.browserbase.com/v1/sessions/" +:+ sessionId)) ;;
  ret tt.

Definition closeBrowserUseSession (sessionId apiKey : string) : M unit :=
  response <- request (Fetch "PATCH"
                         ("https://api.browser-use.com/api/v2/browsers/" +:+ sessionId)) ;;
  if negb (flag response) then
    throw ("Failed to close Browser Use session: " +:+ text response)
  else ret tt.

Definition closeKernelSession (sessionId apiKey : string) : M unit :=
  response <- request (Fetch "DELETE" ("https://api.onkernel.com/browsers/" +:+ sessionId)) ;;
  if negb (flag response) then throw ("Failed to close Kernel session: " +:+ text response)
  else ret tt.

(** [for (const page of this.pages) await page.close().catch(() => {})]:
    the array iterator reads [this.pages] again at every step, and the close
    listener may have shortened it meanwhile.  The listener only removes
    pages, so the loop takes at most as many steps as the array was long at
    its start; [steps] is that bound. *)
Fixpoint close_each_page (steps i : nat) : M unit :=
  match steps with
  | O => ret tt
  | S steps' =>
      ps <- read pages ;;
      match ps !! i with
      | Some page => swallow (page_close page) ;; close_each_page steps' (S i)
      | None => ret tt
      end
  end.

(** [for (const context of this.contexts) await context.close().catch(() => {})] *)
Fixpoint close_each_context (cs : list BrowserContext) : M unit :=
  match cs with
  | [] => ret tt
  | context :: rest => swallow (request (ContextClose context)) ;; close_each_context rest
  end.

(** [if (this.browser) { await this.browser.close().catch(() => {});
    this.browser = null; }] *)
Definition close_browser : M unit :=
  b <- read browser ;;
  match b with
  | Some b => swallow (request (BrowserClose b)) ;; assign (set_browser None)
  | None => ret tt
  end.

(** 2123: [close] *)
Definition close : M unit :=
  recording <- read recordingContext ;;
  when (is_set recording) (stopRecording ;; ret tt) ;;
  active <- read screencastActive ;;
  when active stopScreencast ;;
  session <- read cdpSession ;;
  match session with
  | Some s => swallow (request (CdpDetach s)) ;; assign (set_cdpSession None)
  | None => ret tt
  end ;;
  m <- get_this ;;
  (if truthy (browserbaseSessionId m) && truthy (browserbaseApiKey m) then
     swallow (closeBrowserbaseSession (default "" (browserbaseSessionId m))
                                      (default "" (browserbaseApiKey m))) ;;
     assign (set_browser None)
   else if truthy (browserUseSessionId m) && truthy (browserUseApiKey m) then
     swallow (closeBrowserUseSession (default "" (browserUseSessionId m))
                                     (default "" (browserUseApiKey m))) ;;
     assign (set_browser None)
   else if truthy (kernelSessionId m) && truthy (kernelApiKey m) then
     swallow (closeKernelSession (default "" (kernelSessionId m))
                                 (default "" (kernelApiKey m))) ;;
     assign (set_browser None)
   else if is_set (cdpEndpoint m) then close_browser
   else
     close_each_page (length (pages m)) 0 ;;
     cs <- read contexts ;;
     close_each_context cs ;;
     close_browser) ;;
  assign (set_pages []) ;;
  assign (set_contexts []) ;;
  assign (set_cdpEndpoint None) ;;
  assign (set_browserbaseSessionId None) ;;
  assign (set_browserbaseApiKey None) ;;
  assign (set_browserUseSessionId None) ;;
  assign (set_browserUseApiKey None) ;;
  assign (set_kernelSessionId None) ;;
  assign (set_kernelApiKey None) ;;
  assign (set_isPersistentContext false) ;;
  assign (set_activePageIndex 0) ;;
  assign (set_refMap []) ;;
  assign (set_lastSnapshot "") ;;
  assign (set_frameCallback None).

(** [for (const x of l) { body(x) }] over an array the body does not change *)
Fixpoint for_each {A} (l : list A) (body : A -> M unit) : M unit :=
  match l with
  | [] => ret tt
  | x :: rest => body x ;; for_each rest body
  end.

(** [String.prototype.includes] *)
Fixpoint string_includes (s sub : string) : bool :=
  startsWith s sub
  || match s with
     | EmptyString => false
     | String _ rest => string_includes rest sub
     end.

(** 730: [isCdpConnectionAlive] *)
Fixpoint some_context_has_pages (cs : list BrowserContext) : M bool :=
  match cs with
  | [] => ret false
  | context :: rest =>
      ps <- request (ContextPages context) ;;
      if (0 <? length (handles ps))%nat then ret true else some_context_has_pages rest
  end.

Definition isCdpConnectionAlive : M bool :=
  b <- read browser ;;
  match b with
  | None => ret false
  | Some b =>
      try_catch
        (cs <- request (BrowserContexts b) ;;
         if (length (handles cs) =? 0)%nat then ret false
         else some_context_has_pages (handles cs))
        (fun _ => ret false)
  end.

(** [this.cdpEndpoint !== cdpEndpoint] *)
Definition differs (current : option string) (wanted : string) : bool :=
  match current with
  | Some s => negb (String.eqb s wanted)
  | None => true
  end.

(** 744: [needsCdpReconnect] *)
Definition needsCdpReconnect (endpoint : string) : M bool :=
  m <- get_this ;;
  connected <- match browser m with
               | Some b => r <- query (BrowserIsConnected b) ;; ret (flag r)
               | None => ret false
               end ;;
  if negb connected then ret true
  else if differs (cdpEndpoint m) endpoint then ret true
  else
    alive <- isCdpConnectionAlive ;;
    ret (negb alive).

(** [contexts.flatMap((context) => context.pages())] *)
Fixpoint all_pages (cs : list BrowserContext) : M (list Page) :=
  match cs with
  | [] => ret []
  | context :: rest =>
      ps <- request (ContextPages context) ;;
      others <- all_pages rest ;;
      ret (handles ps ++ others)
  end.

(** [pages.filter((page) => page.url())] *)
Fixpoint pages_with_url (ps : list Page) : M (list Page) :=
  match ps with
  | [] => ret []
  | page :: rest =>
      url <- request (PageUrl page) ;;
      kept <- pages_with_url rest ;;
      ret (if truthy_string (text url) then page :: kept else kept)
  end.

(** 1324: [connectViaCDP] *)
Definition connectViaCDP (endpoint : option string) : M unit :=
  if negb (truthy endpoint) then throw "CDP endpoint is required for CDP connection"
  else
    let cdpEndpoint := default "" endpoint in
    let cdpUrl :=
      if startsWith cdpEndpoint "ws://" || startsWith cdpEndpoint "wss://"
         || startsWith cdpEndpoint "http://" || startsWith cdpEndpoint "https://"
      then cdpEndpoint
      else "http://localhost:" +:+ cdpEndpoint in
    connection <-
      try_catch (request (ConnectOverCDP cdpUrl))
        (fun _ => throw ("Failed to connect via CDP to " +:+ cdpUrl +:+ ". " +:+
                         (if string_includes cdpUrl "localhost" then
                            "Make sure the app is running with --remote-debugging-port="
                            +:+ cdpEndpoint
                          else "Make sure the remote browser is accessible and the URL is correct."))) ;;
    let b := handle connection in
    try_catch
      (cs <- request (BrowserContexts b) ;;
       let found := handles cs in
       if (length found =? 0)%nat then
         throw "No browser context found. Make sure the app has an open window."
       else
         every <- all_pages found ;;
         allPages <- pages_with_url every ;;
         if (length allPages =? 0)%nat then
           throw "No page found. Make sure the app has loaded content."
         else
           assign (set_browser (Some b)) ;;
           assign (set_cdpEndpoint (Some cdpEndpoint)) ;;
           for_each found (fun context =>
             notify (ContextSetDefaultTimeout context 10000) ;;
             assign (fun m => set_contexts (push context (contexts m)) m) ;;
             setupContextTracking context) ;;
           for_each allPages (fun page =>
             assign (fun m => set_pages (push page (pages m)) m) ;;
             setupPageTracking page) ;;
           assign (set_activePageIndex 0))
      (fun message => swallow (request (BrowserClose b)) ;; throw message).

(** 1399: [getChromeUserDataDirs] *)
Definition getChromeUserDataDirs : M (list string) :=
  home <- ask homedir ;;
  os <- ask platform ;;
  if String.eqb os "darwin" then
    let base := path_join (path_join home "Library") "Application Support" in
    ret [path_join (path_join base "Google") "Chrome";
         path_join (path_join base "Google") "Chrome Canary";
         path_join base "Chromium"]
  else if String.eqb os "win32" then
    local <- getenv "LOCALAPPDATA" ;;
    let localAppData := default (path_join (path_join home "AppData") "Local") local in
    ret [path_join (path_join (path_join localAppData "Google") "Chrome") "User Data";
         path_join (path_join (path_join localAppData "Google") "Chrome SxS") "User Data";
         path_join (path_join localAppData "Chromium") "User Data"]
  else
    ret [path_join (path_join home ".config") "google-chrome";
         path_join (path_join home ".config") "google-chrome-unstable";
         path_join (path_join home ".config") "chromium"].

(** 1430: [readDevToolsActivePort].  What the file holds is the engine's
    answer: the port its first line parses to (none for [NaN]) and its
    second line. *)
Definition readDevToolsActivePort (userDataDir : string) : M (option (Z * string)) :=
  let filePath := path_join userDataDir "DevToolsActivePort" in
  try_catch
    (present <- existsSync filePath ;;
     if negb present then ret None
     else
       content <- request (ReadDevToolsActivePort filePath) ;;
       match handles content, texts content with
       | n :: _, wsPath :: _ =>
           let port := Z.of_nat n in
           if (port <=? 0)%Z || (65535 <? port)%Z then ret None
           else if negb (truthy_string wsPath) then ret None
           else ret (Some (port, wsPath))
       | _, _ => ret None
       end)
    (fun _ => ret None).

(** 1454: [probeDebugPort] *)
Definition probeDebugPort (port : Z) : M (option string) :=
  try_catch
    (response <- request (Fetch "GET" ("http://127.0.0.1:" +:+ pretty port
                                       +:+ "/json/version")) ;;
     if negb (flag response) then ret None
     else
       data <- request ResponseJson ;;
       ret (head (texts data)))
    (fun _ => ret None).

(** 1476: [autoConnectViaCDP] *)
Fixpoint connect_from_active_port (dirs : list string) (otherwise : M unit) : M unit :=
  match dirs with
  | [] => otherwise
  | dir :: rest =>
      activePort <- readDevToolsActivePort dir ;;
      match activePort with
      | Some (port, _) =>
          wsUrl <- probeDebugPort port ;;
          if truthy wsUrl then connectViaCDP wsUrl
          else
            connected <- try_catch
                           (connectViaCDP (Some ("http://127.0.0.1:" +:+ pretty port)) ;;
                            ret true)
                           (fun _ => ret false) ;;
            if connected then ret tt else connect_from_active_port rest otherwise
      | None => connect_from_active_port rest otherwise
      end
  end.

Fixpoint connect_from_common_port (ports : list Z) (otherwise : M unit) : M unit :=
  match ports with
  | [] => otherwise
  | port :: rest =>
      wsUrl <- probeDebugPort port ;;
      if truthy wsUrl then connectViaCDP wsUrl
      else connect_from_common_port rest otherwise
  end.

Definition no_chrome_found : M unit :=
  os <- ask platform ;;
  let hint :=
    (if String.eqb os "darwin" then
       "Start Chrome with: /Applications/Google\ Chrome.app/Contents/MacOS/Google\ Chrome --remote-debugging-port=9222"
     else if String.eqb os "win32" then
       "Start Chrome with: chrome.exe --remote-debugging-port=9222"
     else "Start Chrome with: google-chrome --remote-debugging-port=9222")
    +:+ String (Ascii.ascii_of_nat 10)
          "Or enable remote debugging in Chrome 144+ at chrome://inspect/#remote-debugging" in
  throw ("No running Chrome instance with remote debugging found."
         +:+ String (Ascii.ascii_of_nat 10) hint).

Definition autoConnectViaCDP : M unit :=
  userDataDirs <- getChromeUserDataDirs ;;
  connect_from_active_port userDataDirs
    (connect_from_common_port [9222; 9229]%Z no_chrome_found).

(** The tail the three provider connections share: take the first page of
    the context, or open one.  [pages[0] ?? (await context.newPage())] *)
Definition first_page_or_new (context : BrowserContext) : M Page :=
  ps <- request (ContextPages context) ;;
  match handles ps with
  | page :: _ => ret page
  | [] => context_newPage context
  end.

(** 801: [connectToBrowserbase] *)
Definition connectToBrowserbase : M unit :=
  browserbaseApiKey <- getenv "BROWSERBASE_API_KEY" ;;
  browserbaseProjectId <- getenv "BROWSERBASE_PROJECT_ID" ;;
  if negb (truthy browserbaseApiKey) || negb (truthy browserbaseProjectId) then
    throw "BROWSERBASE_API_KEY and BROWSERBASE_PROJECT_ID are required when using browserbase as a provider"
  else
    let apiKey := default "" browserbaseApiKey in
    response <- request (Fetch "POST" "https://api.browserbase.com/v1/sessions") ;;
    if negb (flag response) then
      throw ("Failed to create Browserbase session: " +:+ text response)
    else
      session <- request ResponseJson ;;
      let id := text session in
      let connectUrl := nth 1 (texts session) "" in
      connection <- try_catch (request (ConnectOverCDP connectUrl))
                      (fun _ => throw "Failed to connect to Browserbase session via CDP") ;;
      let b := handle connection in
      try_catch
        (cs <- request (BrowserContexts b) ;;
         match handles cs with
         | [] => throw "No browser context found in Browserbase session"
         | context :: _ =>
             page <- first_page_or_new context ;;
             assign (set_browserbaseSessionId (Some id)) ;;
             assign (set_browserbaseApiKey (Some apiKey)) ;;
             assign (set_browser (Some b)) ;;
             notify (ContextSetDefaultTimeout context 10000) ;;
             assign (fun m => set_contexts (push context (contexts m)) m) ;;
             setupContextTracking context ;;
             assign (fun m => set_pages (push page (pages m)) m) ;;
             assign (set_activePageIndex 0) ;;
             setupPageTracking page
         end)
        (fun message => swallow (closeBrowserbaseSession id apiKey) ;; throw message).

(** 863: [findOrCreateKernelProfile].  The reply to the first request
    carries [response.ok] and, when it is not, whether the status is 404. *)
Definition findOrCreateKernelProfile (profileName apiKey : string) : M unit :=
  getResponse <- request (Fetch "GET" ("https://api.onkernel.com/profiles/" +:+ profileName)) ;;
  if flag getResponse then ret tt
  else if negb (String.eqb (nth 1 (texts getResponse) "") "404") then
    throw ("Failed to check Kernel profile: " +:+ text getResponse)
  else
    createResponse <- request (Fetch "POST" "https://api.onkernel.com/profiles") ;;
    if negb (flag createResponse) then
      throw ("Failed to create Kernel profile: " +:+ text createResponse)
    else ret tt.

(** The context and page a Kernel or Browser Use connection adopts. *)
Definition adopt_context_and_page (b : Browser) : M (BrowserContext * Page) :=
  cs <- request (BrowserContexts b) ;;
  match handles cs with
  | [] =>
      r <- request (BrowserNewContext b None None None) ;;
      page <- context_newPage (handle r) ;;
      ret (handle r, page)
  | context :: _ =>
      page <- first_page_or_new context ;;
      ret (context, page)
  end.

(** 908: [connectToKernel] *)
Definition connectToKernel : M unit :=
  kernelApiKey <- getenv "KERNEL_API_KEY" ;;
  if negb (truthy kernelApiKey) then
    throw "KERNEL_API_KEY is required when using kernel as a provider"
  else
    let apiKey := default "" kernelApiKey in
    profileName <- getenv "KERNEL_PROFILE_NAME" ;;
    when (truthy profileName) (findOrCreateKernelProfile (default "" profileName) apiKey) ;;
    response <- request (Fetch "POST" "https://api.onkernel.com/browsers") ;;
    if negb (flag response) then
      throw ("Failed to create Kernel session: " +:+ text response)
    else
      session <- try_catch (request ResponseJson)
                   (fun message =>
                      throw ("Failed to parse Kernel session response: " +:+ message)) ;;
      let session_id := text session in
      let cdp_ws_url := nth 1 (texts session) "" in
      if negb (truthy_string session_id) || negb (truthy_string cdp_ws_url) then
        throw ("Invalid Kernel session response: missing "
               +:+ (if negb (truthy_string session_id) then "session_id" else "cdp_ws_url"))
      else
        connection <- try_catch (request (ConnectOverCDP cdp_ws_url))
                        (fun _ => throw "Failed to connect to Kernel session via CDP") ;;
        let b := handle connection in
        try_catch
          (adopted <- adopt_context_and_page b ;;
           let '(context, page) := adopted in
           assign (set_kernelSessionId (Some session_id)) ;;
           assign (set_kernelApiKey (Some apiKey)) ;;
           assign (set_browser (Some b)) ;;
           notify (ContextSetDefaultTimeout context 60000) ;;
           assign (fun m => set_contexts (push context (contexts m)) m) ;;
           assign (fun m => set_pages (push page (pages m)) m) ;;
           assign (set_activePageIndex 0) ;;
           setupPageTracking page ;;
           setupContextTracking context)
          (fun message => swallow (closeKernelSession session_id apiKey) ;; throw message).

(** 1004: [connectToBrowserUse] *)
Definition connectToBrowserUse : M unit :=
  browserUseApiKey <- getenv "BROWSER_USE_API_KEY" ;;
  if negb (truthy browserUseApiKey) then
    throw "BROWSER_USE_API_KEY is required when using browseruse as a provider"
  else
    let apiKey := default "" browserUseApiKey in
    response <- request (Fetch "POST" "https://api.browser-use.com/api/v2/browsers") ;;
    if negb (flag response) then
      throw ("Failed to create Browser Use session: " +:+ text response)
    else
      session <- try_catch (request ResponseJson)
                   (fun message =>
                      throw ("Failed to parse Browser Use session response: " +:+ message)) ;;
      let id := text session in
      let cdpUrl := nth 1 (texts session) "" in
      if negb (truthy_string id) || negb (truthy_string cdpUrl) then
        throw ("Invalid Browser Use session response: missing "
               +:+ (if negb (truthy_string id) then "id" else "cdpUrl"))
      else
        connection <- try_catch (request (ConnectOverCDP cdpUrl))
                        (fun _ => throw "Failed to connect to Browser Use session via CDP") ;;
        let b := handle connection in
        try_catch
          (adopted <- adopt_context_and_page b ;;
           let '(context, page) := adopted in
           assign (set_browserUseSessionId (Some id)) ;;
           assign (set_browserUseApiKey (Some apiKey)) ;;
           assign (set_browser (Some b)) ;;
           notify (ContextSetDefaultTimeout context 60000) ;;
           assign (fun m => set_contexts (push context (contexts m)) m) ;;
           assign (fun m => set_pages (push page (pages m)) m) ;;
           assign (set_activePageIndex 0) ;;
           setupPageTracking page ;;
           setupContextTracking context)
          (fun message => swallow (closeBrowserUseSession id apiKey) ;; throw message).

(** Modelled from the spec: the option type [LaunchCommand] is declared in
    [types.js], which is not among the sources.  These are the options
    [launch] branches on; the options it only hands on to the engine
    (executable path, extra headers, user agent, proxy, HTTPS errors) have
    no part in what the manager does and are left out. *)
Module LaunchCommand.
Record t := mk {
  cdpUrl : option string;
  cdpPort : option Z;
  extensions : option (list string);
  profile : option string;
  storageState : option StorageState;
  autoConnect : option bool;
  provider : option string;
  browser : option BrowserType;
  allowFileAccess : option bool;
  args : option (list string);
  viewport : option (option Viewport);
  headless : option bool;
  autoStateFilePath : option string;
}.
End LaunchCommand.

(** [options.cdpUrl ?? (options.cdpPort ? String(options.cdpPort) : undefined)] *)
Definition cdpEndpoint_of (options : LaunchCommand.t) : option string :=
  match LaunchCommand.cdpUrl options with
  | Some url => Some url
  | None =>
      match LaunchCommand.cdpPort options with
      | Some port => if (port =? 0)%Z then None else Some (pretty port)
      | None => None
      end
  end.

(** [!!options.extensions?.length], [!!options.profile], [!!options.storageState] *)
Definition hasExtensions (options : LaunchCommand.t) : bool :=
  match LaunchCommand.extensions options with
  | Some l => negb (length l =? 0)%nat
  | None => false
  end.

Definition hasProfile (options : LaunchCommand.t) : bool :=
  truthy (LaunchCommand.profile options).

Definition hasStorageState (options : LaunchCommand.t) : bool :=
  match LaunchCommand.storageState options with
  | Some (StorageStatePath p) => truthy_string p
  | Some StorageStateObject => true
  | None => false
  end.

(** Truthiness of an optional boolean. *)
Definition is_true_option (o : option bool) : bool := default false o.

Definition is_chromium (kind : BrowserType) : bool :=
  match kind with chromium => true | _ => false end.

(** 1251-1295: the state file loaded when no storage state was given.  The
    answer to [ReadStateFile] tells whether the parsed file is an encrypted
    payload; the answer to [GetEncryptionKey] whether a key is set. *)
Definition auto_load_state (given : option StorageState) (autoStateFilePath : option string)
  : M (option StorageState) :=
  if is_set given || negb (truthy autoStateFilePath) then ret given
  else
    let file := default "" autoStateFilePath in
    try_catch
      (present <- existsSync file ;;
       if negb present then ret given
       else
         parsed <- request (ReadStateFile file) ;;
         if flag parsed then
           key <- request GetEncryptionKey ;;
           if flag key then
             try_catch (request DecryptData ;; ret (Some StorageStateObject))
               (fun _ =>
                  assign (fun m => set_launchWarnings
                    (push "Failed to decrypt state file - wrong encryption key? Starting fresh."
                          (launchWarnings m)) m) ;;
                  ret given)
           else
             name <- ask encryption_key_env ;;
             assign (fun m => set_launchWarnings
               (push ("State file is encrypted but " +:+ name +:+ " not set - starting fresh")
                     (launchWarnings m)) m) ;;
             ret given
         else ret (Some (StorageStatePath file)))
      (fun _ => ret given).

(** 1147-1317: the rest of [launch], reached when no other connection
    strategy was chosen. *)
Definition launch_local (options : LaunchCommand.t) : M unit :=
  let browserType := default chromium (LaunchCommand.browser options) in
  if hasExtensions options && negb (is_chromium browserType) then
    throw "Extensions are only supported in Chromium"
  else if is_true_option (LaunchCommand.allowFileAccess options)
          && negb (is_chromium browserType) then
    throw "allowFileAccess is only supported in Chromium"
  else
    let launcher := browserType in
    let fileAccessArgs :=
      if is_true_option (LaunchCommand.allowFileAccess options)
      then ["--allow-file-access-from-files"; "--allow-file-access"] else [] in
    let baseArgs :=
      match LaunchCommand.args options with
      | Some a => Some (fileAccessArgs ++ a)
      | None => if (0 <? length fileAccessArgs)%nat then Some fileAccessArgs else None
      end in
    let hasWindowSizeArgs :=
      match baseArgs with
      | Some a => existsb (fun arg => String.eqb arg "--start-maximized"
                                      || startsWith arg "--window-size=") a
      | None => false
      end in
    let viewport :=
      match LaunchCommand.viewport options with
      | Some v => v
      | None => if hasWindowSizeArgs then None else Some (1280, 720)%Z
      end in
    context <-
      (if hasExtensions options then
         let extPaths := String.concat "," (default [] (LaunchCommand.extensions options)) in
         session <- session_name ;;
         let extArgs := ["--disable-extensions-except=" +:+ extPaths;
                         "--load-extension=" +:+ extPaths] in
         let allArgs := match baseArgs with Some a => extArgs ++ a | None => extArgs end in
         tmp <- ask tmpdir ;;
         r <- request (LauncherLaunchPersistentContext launcher
                         (path_join tmp ("agent-browser-ext-" +:+ session))
                         (Some allArgs) viewport) ;;
         assign (set_isPersistentContext true) ;;
         ret (handle r)
       else if hasProfile options then
         home <- ask homedir ;;
         let profile := default "" (LaunchCommand.profile options) in
         let profilePath :=
           if startsWith profile "~/"
           then home +:+ "/" +:+ String.substring 2 (String.length profile - 2) profile
           else profile in
         r <- request (LauncherLaunchPersistentContext launcher profilePath baseArgs
                         viewport) ;;
         assign (set_isPersistentContext true) ;;
         ret (handle r)
       else
         r <- request (LauncherLaunch launcher baseArgs) ;;
         assign (set_browser (Some (handle r))) ;;
         assign (set_cdpEndpoint None) ;;
         storageState <- auto_load_state
                           (if hasStorageState options
                            then LaunchCommand.storageState options else None)
                           (LaunchCommand.autoStateFilePath options) ;;
         c <- request (BrowserNewContext (handle r) (Some viewport) storageState None) ;;
         ret (handle c)) ;;
    notify (ContextSetDefaultTimeout context 60000) ;;
    assign (fun m => set_contexts (push context (contexts m)) m) ;;
    setupContextTracking context ;;
    page <- first_page_or_new context ;;
    track_if_new page ;;
    assign (fun m => set_activePageIndex
                       (if (0 <? length (pages m))%nat then Z.of_nat (length (pages m)) - 1
                        else 0) m).

(** 1105-1108: [needsRelaunch], with the short circuits of [||] and [&&] *)
Definition needsRelaunch (options : LaunchCommand.t) : M bool :=
  let endpoint := cdpEndpoint_of options in
  let autoConnect := is_true_option (LaunchCommand.autoConnect options) in
  current <- read cdpEndpoint ;;
  if negb (truthy endpoint) && negb autoConnect && is_set current then ret true
  else
    reconnect <- (if truthy endpoint then needsCdpReconnect (default "" endpoint)
                  else ret false) ;;
    if reconnect then ret true
    else if autoConnect then alive <- isCdpConnectionAlive ;; ret (negb alive)
    else ret false.

(** 1119-1145: the connection strategy picked once the manager is not, or
    no longer, launched *)
Definition connect (options : LaunchCommand.t) : M unit :=
  let endpoint := cdpEndpoint_of options in
  if truthy endpoint then connectViaCDP endpoint
  else if is_true_option (LaunchCommand.autoConnect options) then autoConnectViaCDP
  else
    fromEnv <- getenv "AGENT_BROWSER_PROVIDER" ;;
    let provider :=
      match LaunchCommand.provider options with Some p => Some p | None => fromEnv end in
    if bool_decide (provider = Some "browserbase") then connectToBrowserbase
    else if bool_decide (provider = Some "browseruse") then connectToBrowserUse
    else if bool_decide (provider = Some "kernel") then connectToKernel
    else launch_local options.

(** 1077: [launch] *)
Definition launch (options : LaunchCommand.t) : M unit :=
  let endpoint := cdpEndpoint_of options in
  if hasExtensions options && truthy endpoint then
    throw "Extensions cannot be used with CDP connection"
  else if hasProfile options && truthy endpoint then
    throw "Profile cannot be used with CDP connection"
  else if hasStorageState options && hasProfile options then
    throw "Storage state cannot be used with profile (profile is already persistent storage)"
  else if hasStorageState options && hasExtensions options then
    throw "Storage state cannot be used with extensions (extensions require persistent context)"
  else
    m <- get_this ;;
    if isLaunched m then
      relaunch <- needsRelaunch options ;;
      if relaunch then close ;; connect options
      else
        (* [else if (options.autoConnect && this.isCdpConnectionAlive())]:
           both branches return *)
        when (is_true_option (LaunchCommand.autoConnect options))
             (isCdpConnectionAlive ;; ret tt)
    else connect options.

(** ** Scoped headers *)

(** 605-615: the URL pattern of an origin *)
Definition urlPattern (e : Engine) (origin : string) : string :=
  match url_host e (if startsWith origin "http" then origin else "https://" +:+ origin) with
  | Some host => "**://" +:+ host +:+ "/**"
  | None => "**://" +:+ origin +:+ "/**"
  end.

Definition urlPattern_of (origin : string) : M string :=
  ask (fun e => urlPattern e origin).

(** [page.route(pattern, handler)] puts the rule in front of the page's
    rules; [page.unroute(pattern, handler)] drops the rules of the page with
    that pattern and that handler. *)
Definition same_rule (page : Page) (pattern : string) (h : RouteHandler)
  (rule : Page * string * RouteHandler) : bool :=
  (rule.1.1 =? page)%nat && String.eqb rule.1.2 pattern
  && (handler_id rule.2 =? handler_id h)%nat.

Definition page_route (page : option Page) (pattern : string) (h : RouteHandler) : M unit :=
  p <- deref page ;;
  request (PageRoute p pattern h) ;;
  tell (fun e => set_routes ((p, pattern, h) :: routes e) e).

Definition page_unroute (page : option Page) (pattern : string) (h : RouteHandler) : M unit :=
  p <- deref page ;;
  request (PageUnroute p pattern h) ;;
  tell (fun e => set_routes (List.filter (fun r => negb (same_rule p pattern h r)) (routes e)) e).

(** 602: [setScopedHeaders] *)
Definition setScopedHeaders (origin : string) (headers : Headers) : M unit :=
  page <- getPage ;;
  urlPattern <- urlPattern_of origin ;;
  registered <- read scopedHeaderRoutes ;;
  match map_get urlPattern registered with
  | Some existingHandler => page_unroute page urlPattern existingHandler
  | None => ret tt
  end ;;
  id <- new_closure ;;
  let handler := {| handler_id := id; handler_headers := headers |} in
  assign (fun m => set_scopedHeaderRoutes (map_set urlPattern handler (scopedHeaderRoutes m)) m) ;;
  page_route page urlPattern handler.

(** 639: [clearScopedHeaders] *)
Definition clearScopedHeaders (origin : option string) : M unit :=
  page <- getPage ;;
  if truthy origin then
    urlPattern <- urlPattern_of (default "" origin) ;;
    registered <- read scopedHeaderRoutes ;;
    match map_get urlPattern registered with
    | Some handler =>
        page_unroute page urlPattern handler ;;
        assign (fun m => set_scopedHeaderRoutes (map_delete urlPattern (scopedHeaderRoutes m)) m)
    | None => ret tt
    end
  else
    registered <- read scopedHeaderRoutes ;;
    for_each registered (fun entry => page_unroute page entry.1 entry.2) ;;
    assign (set_scopedHeaderRoutes []).

(** Modelled from the spec: [safeHeaderMerge] is imported from
    [state-utils.js], which is not among the sources; it merges the given
    headers into those of the request without discarding existing headers,
    conflicting keys favouring the new value. *)
Definition safeHeaderMerge (requestHeaders headers : Headers) : Headers :=
  fold_left (fun merged entry => map_set entry.1 entry.2 merged) headers requestHeaders.

(** What a registered rule does to a matching request: the headers the
    request continues with. *)
Definition continue_headers (h : RouteHandler) (requestHeaders : Headers) : Headers :=
  safeHeaderMerge requestHeaders (handler_headers h).

(** 133: [getSnapshot].  The snapshot collaborator's result is not computed
    by the manager; it is given here as what the collaborator returns. *)
Definition getSnapshot (tree : string) (refs : RefMap) : M (string * RefMap) :=
  page <- getPage ;;
  p <- deref page ;;
  request (GetEnhancedSnapshot p) ;;
  assign (set_refMap refs) ;;
  assign (set_lastSnapshot tree) ;;
  ret (tree, refs).

(** 471, 489, 1824, 1860, 1881: the methods that send one command over the
    debugging session ([setDeviceScaleFactor], [clearDeviceMetricsOverride],
    [injectMouseEvent], [injectKeyboardEvent], [injectTouchEvent]) *)
Definition sendCommand (method : string) : M unit :=
  cdp <- getCDPSession ;;
  request (CdpSend cdp method) ;;
  ret tt.

(** ** The manager as a transition system

    What can happen to a manager: a caller invokes one of its methods, or
    the engine delivers one of the two events the manager listens to.  The
    methods that only touch fields left out of [BrowserManager] (frames,
    dialogs, request tracking, routes of [addRoute], console and error
    buffers, HAR flag) do nothing to the modelled state. *)
Inductive Operation :=
  | Launch (options : LaunchCommand.t)
  | Close
  | EnsurePage
  | NewTab
  | NewWindow (viewport : option (option Viewport))
  | SwitchTo (index : Z)
  | CloseTab (index : option Z)
  | GetSnapshot (tree : string) (refs : RefMap)
  | GetCDPSession
  | SendCommand (method : string)
  | StartScreencast (callback : FrameCallback) (options : option ScreencastOptions)
  | StopScreencast
  | StartRecording (outputPath : string) (url : option string)
  | StopRecording
  | RestartRecording (outputPath : string) (url : option string)
  | SetScopedHeaders (origin : string) (headers : Headers)
  | ClearScopedHeaders (origin : option string)
  | GetAndClearWarnings
  | PageClosed (page : Page)
  | PageOpened (page : Page).

(** The result of a method is dropped: only its effect and whether it
    threw matter here. *)
Definition perform (op : Operation) : M unit :=
  match op with
  | Launch options => launch options
  | Close => close
  | EnsurePage => ensurePage
  | NewTab => newTab ;; ret tt
  | NewWindow viewport => newWindow viewport ;; ret tt
  | SwitchTo index => switchTo index ;; ret tt
  | CloseTab index => closeTab index ;; ret tt
  | GetSnapshot tree refs => getSnapshot tree refs ;; ret tt
  | GetCDPSession => getCDPSession ;; ret tt
  | SendCommand method => sendCommand method
  | StartScreencast callback options => startScreencast callback options
  | StopScreencast => stopScreencast
  | StartRecording outputPath url => startRecording outputPath url
  | StopRecording => stopRecording ;; ret tt
  | RestartRecording outputPath url => restartRecording outputPath url ;; ret tt
  | SetScopedHeaders origin headers => setScopedHeaders origin headers
  | ClearScopedHeaders origin => clearScopedHeaders origin
  | GetAndClearWarnings => getAndClearWarnings ;; ret tt
  | PageClosed page => on_page_close page
  | PageOpened page => on_context_page page
  end.

(** The world after a statement, whatever its outcome. *)
Definition after {A} (c : M A) (w : World) : World := (c w).2.

(** The states a manager can be in: it starts as [new BrowserManager()]
    next to any collaborators; operations follow one another; and between
    two operations the collaborators may change in any way (other programs
    write files, pages navigate, the methods left out of the model register
    their listeners and routes). *)
Inductive reachable : World -> Prop :=
  | reachable_new (e : Engine) (n : nat) :
      reachable {| this := new_BrowserManager; engine := e; closures := n |}
  | reachable_perform (w : World) (op : Operation) :
      reachable w -> reachable (after (perform op) w)
  | reachable_engine (w : World) (e : Engine) :
      reachable w -> reachable {| this := this w; engine := e; closures := closures w |}.

(** ** Sample worlds

    Collaborators that answer every request with a new object, and some
    worlds reached with them; the properties below are instantiated on
    these. *)
Definition obliging (early : bool) : Engine :=
  {| oracle := fun n => Returns [100 + n] ["about:blank"; "ws://127.0.0.1:9222/x"];
     eager := fun _ => early; asked := 0; calls := []; files := []; routes := [];
     env := []; url_host := fun s => Some s; platform := "linux"; homedir := "/home/user";
     tmpdir := "/tmp"; encryption_key_env := "AGENT_BROWSER_ENCRYPTION_KEY" |}.

Definition new_world (early : bool) : World :=
  {| this := new_BrowserManager; engine := obliging early; closures := 0 |}.

Definition default_options : LaunchCommand.t :=
  LaunchCommand.mk None None None None None None None None None None None None None.

Fixpoint perform_all (ops : list Operation) (w : World) : World :=
  match ops with
  | [] => w
  | op :: rest => perform_all rest (after (perform op) w)
  end.

(** One tab, two tabs, three tabs. *)
Definition one_tab (early : bool) : World :=
  perform_all [Launch default_options] (new_world early).

Definition two_tabs (early : bool) : World :=
  perform_all [Launch default_options; NewTab] (new_world early).

Definition three_tabs (early : bool) : World :=
  perform_all [Launch default_options; NewTab; NewTab] (new_world early).

(** ** What the properties speak of *)

(** The requests and notifications sent while going from [w] to [w']. *)
Definition calls_since (w w' : World) : list Call :=
  drop (length (calls (engine w))) (calls (engine w')).

(** The active index points at a page of the sequence, when there is one. *)
Definition active_page_live (m : BrowserManager) : Prop :=
  pages m <> [] ->
  (0 <= activePageIndex m < Z.of_nat (length (pages m)))%Z
  /\ exists page, at_index (pages m) (activePageIndex m) = Some page /\ (page ∈ pages m).

(** [later] is [earlier] with the first occurrence of [x] taken out. *)
Definition removed_from {A} (x : A) (earlier later : list A) : Prop :=
  exists l1 l2, earlier = l1 ++ x :: l2 /\ (x ∉ l1) /\ later = l1 ++ l2.

(** An array of engine objects with every occurrence of one of them taken out. *)
Definition without (x : nat) (l : list nat) : list nat :=
  List.filter (fun y => negb (y =? x)%nat) l.

(** The engine answers every request. *)
Definition answers (e : Engine) : Prop :=
  forall n, exists hs ts, oracle e n = Returns hs ts.

(** The requests that create a page, and those that create a context. *)
Definition creates_page (c : Call) : bool :=
  match c with ContextNewPage _ => true | _ => false end.

Definition creates_context (c : Call) : bool :=
  match c with
  | BrowserNewContext _ _ _ _ | LauncherLaunchPersistentContext _ _ _ _ => true
  | _ => false
  end.

(** The requests of the debugging session. *)
Definition debugging_call (c : Call) : bool :=
  match c with
  | PageContext _ | ContextNewCDPSession _ _ | CdpOn _ _ _ | CdpOff _ _ _ | CdpSend _ _
  | CdpStartScreencast _ _ _ _ _ _ | CdpDetach _ => true
  | _ => false
  end.

(** The four conflicts between launch options, and the two options only
    Chromium supports. *)
Definition conflicting_options (options : LaunchCommand.t) : bool :=
  hasExtensions options && truthy (cdpEndpoint_of options)
  || hasProfile options && truthy (cdpEndpoint_of options)
  || hasStorageState options && hasProfile options
  || hasStorageState options && hasExtensions options.

Definition engine_unsupported (options : LaunchCommand.t) : bool :=
  (hasExtensions options || is_true_option (LaunchCommand.allowFileAccess options))
  && negb (is_chromium (default chromium (LaunchCommand.browser options))).

Definition violates_validation (options : LaunchCommand.t) : bool :=
  conflicting_options options || engine_unsupported options.

(** The options, with the environment, ask for a browser started on this
    machine: no endpoint, no automatic connection, no remote provider. *)
Definition launches_locally (options : LaunchCommand.t) (e : Engine) : bool :=
  let provider :=
    match LaunchCommand.provider options with
    | Some p => Some p
    | None => map_get "AGENT_BROWSER_PROVIDER" (env e)
    end in
  negb (truthy (cdpEndpoint_of options))
  && negb (is_true_option (LaunchCommand.autoConnect options))
  && negb (bool_decide (provider = Some "browserbase"))
  && negb (bool_decide (provider = Some "browseruse"))
  && negb (bool_decide (provider = Some "kernel")).

(** No page, no context, and every field that tells how the manager is
    connected at its initial value. *)
Definition closed (m : BrowserManager) : Prop :=
  pages m = [] /\ contexts m = [] /\ browser m = None /\ cdpEndpoint m = None
  /\ browserbaseSessionId m = None /\ browserbaseApiKey m = None
  /\ browserUseSessionId m = None /\ browserUseApiKey m = None
  /\ kernelSessionId m = None /\ kernelApiKey m = None
  /\ isPersistentContext m = false.

(** The rules the engine holds for a page and a pattern, latest first, and
    the rule for a pattern the manager has recorded. *)
Definition rules_for (page : Page) (pattern : string) (e : Engine) : list RouteHandler :=
  map snd (List.filter (fun rule => (rule.1.1 =? page)%nat && String.eqb rule.1.2 pattern)
                       (routes e)).

Definition recorded_rules (pattern : string) (m : BrowserManager) : list RouteHandler :=
  match map_get pattern (scopedHeaderRoutes m) with
  | Some handler => [handler]
  | None => []
  end.

(** ** More sample worlds *)

(** Every page closed from outside while the browser stays. *)
Definition stale (early : bool) : World :=
  perform_all [Launch default_options; PageClosed 102] (new_world early).

(** A recording in progress. *)
Definition recording (early : bool) : World :=
  perform_all [Launch default_options; StartRecording "/tmp/out.webm" None] (new_world early).

(** Attached to a running browser through its debugging port. *)
Definition attach_options : LaunchCommand.t :=
  LaunchCommand.mk None (Some 9222%Z) None None None None None None None None None None None.

Definition attached (early : bool) : World :=
  perform_all [Launch attach_options] (new_world early).

(** A persistent context, for a profile. *)
Definition profile_options : LaunchCommand.t :=
  LaunchCommand.mk None None None (Some "~/profile") None None None None None None None None
                   None.

Definition with_profile (early : bool) : World :=
  perform_all [Launch profile_options] (new_world early).

(** Options that break an engine rule: extensions with Firefox, and file
    access with Firefox next to a debugging port. *)
Definition firefox_with_extensions : LaunchCommand.t :=
  LaunchCommand.mk None None (Some ["/ext"]) None None None None (Some firefox) None None None
                   None None.

Definition firefox_file_access_attached : LaunchCommand.t :=
  LaunchCommand.mk None (Some 9222%Z) None None None None None (Some firefox) (Some true) None
                   None None None.

(** The state [close] leaves behind: closed, no debugging session, no
    screencast, the snapshot forgotten, and no recording under way. *)
Definition settled (m : BrowserManager) : Prop :=
  closed m /\ activePageIndex m = 0%Z /\ refMap m = [] /\ lastSnapshot m = ""
  /\ cdpSession m = None /\ screencastActive m = false /\ frameCallback m = None
  /\ (recordingContext m = None \/ recordingPage m = None).

(** Scoped headers set twice for one origin on a single tab. *)
Definition first_headers : Headers := [("Authorization", "Bearer one")].

Definition second_headers : Headers := [("X-Token", "two")].

Definition headers_once (early : bool) : World :=
  after (setScopedHeaders "api.example.com" first_headers) (one_tab early).

Definition headers_twice (early : bool) : World :=
  after (setScopedHeaders "api.example.com" second_headers) (headers_once early).

(** What [ensurePage] has done from [w] to [w'] when it had a page to
    create: one page requested, of the last context known or else of a
    context created for it, and that page alone tracked and active. *)
Definition recovered (w w' : World) : Prop :=
  exists page context,
    pages (this w') = [page] /\ activePageIndex (this w') = 0%Z
    /\ List.filter creates_page (calls_since w w') = [ContextNewPage context]
    /\ match last (contexts (this w)) with
       | Some known =>
           context = known /\ contexts (this w') = contexts (this w)
           /\ List.filter creates_context (calls_since w w') = []
       | None =>
           contexts (this w') = [context]
           /\ exists b, browser (this w) = Some b
                        /\ List.filter creates_context (calls_since w w')
                           = [BrowserNewContext b None None None]
       end.

(** What [stopRecording] has done from [w] to [w'] to the recording of
    [page] in [context]: both are out of the tracked lists, the page was
    asked to close, the temp directory is gone, the recording fields are
    empty, and the result carries the output path, with an error only if
    the engine failed, and with the engine's message if closing the page
    failed (the page is asked to close in the second exchange with the
    engine, the first being the question for its video). *)
Definition recording_stopped (context : BrowserContext) (page : Page) (w w' : World)
  (result : RecordingResult) : Prop :=
  pages (this w') = without page (pages (this w))
  /\ contexts (this w') = without context (contexts (this w))
  /\ In (PageClose page) (calls_since w w')
  /\ (truthy_string (recordingTempDir (this w)) = true ->
      In (RmSync (recordingTempDir (this w))) (calls_since w w')
      /\ ~ In (recordingTempDir (this w)) (files (engine w')))
  /\ recordingContext (this w') = None /\ recordingPage (this w') = None
  /\ recordingOutputPath (this w') = "" /\ recordingTempDir (this w') = ""
  /\ path result = recordingOutputPath (this w)
  /\ (error result = None -> In (ContextClose context) (calls_since w w'))
  /\ (answers (engine w) -> error result = None)
  /\ (forall message, oracle (engine w) (S (asked (engine w))) = Fails message ->
                      error result = Some message).

(** A screencast under way. *)
Definition screencasting (early : bool) : World :=
  perform_all [Launch default_options; StartScreencast 1%nat None] (new_world early).

(** * Specifications of statements, and invariants

    The vocabulary of the proofs: Hoare triples over the monad [M], the
    run of a statement from a given world, statements that do not throw,
    and the invariants of the manager. *)

(** ** Triples *)

(** From a world that satisfies [P], the statement [c] either returns [a]
    in a world that satisfies [Q a], or throws [e] in a world that
    satisfies [E e]. *)
Definition triple {A} (P : World -> Prop) (c : M A)
  (Q : A -> World -> Prop) (E : string -> World -> Prop) : Prop :=
  forall w, P w -> match c w with (Ok a, w') => Q a w' | (Throw e, w') => E e w' end.

(** A statement keeps an invariant when the invariant holds after it,
    whether it returns or throws. *)
Definition keeps {A} (I : World -> Prop) (c : M A) : Prop :=
  triple I c (fun _ => I) (fun _ => I).

(** An invariant of the manager alone. *)
Definition on_manager (I : BrowserManager -> Prop) : World -> Prop := fun w => I (this w).

(** A statement that does not throw. *)
Definition total {A} (c : M A) : Prop :=
  triple (fun _ => True) c (fun _ _ => True) (fun _ _ => False).

(** The run of [c] from the world [w] ends as [Q] or [E] asks. *)
Definition wp {A} (c : M A) (Q : A -> World -> Prop) (E : string -> World -> Prop)
  (w : World) : Prop :=
  match c w with (Ok a, w') => Q a w' | (Throw e, w') => E e w' end.

(** The world after a request was logged. *)
Definition logged (c : Call) (w : World) : World :=
  {| this := this w;
     engine := set_asked (S (asked (engine w))) (set_calls (calls (engine w) ++ [c]) (engine w));
     closures := closures w |}.

(** ** Views

    Most statements leave most fields alone.  A view gathers the fields an
    invariant speaks of; a statement that leaves the view alone keeps the
    invariant. *)

(** The fields the registry invariants speak of. *)
Definition registry_view (m : BrowserManager) : list Page * Z :=
  (pages m, activePageIndex m).

(** The fields the session invariants speak of. *)
Definition session_view (m : BrowserManager)
  : option Browser * bool * list BrowserContext * option BrowserContext * option Page :=
  (browser m, isPersistentContext m, contexts m, recordingContext m, recordingPage m).

Abbreviation leaves_session c :=
  (forall v, keeps (on_manager (fun m => session_view m = v)) c).

Abbreviation leaves_registry c :=
  (forall v, keeps (on_manager (fun m => registry_view m = v)) c).

(** The manager and the engine, without what belongs to the debugging
    session and without the log. *)
Definition outside_debugging (m : BrowserManager) : BrowserManager :=
  set_cdpSession None
    (set_screencastActive false (set_frameCallback None (set_screencastFrameHandler None m))).

Definition outside_log (e : Engine) : Engine := set_asked 0 (set_calls [] e).

(** From [w] to [w'] only the debugging session changed, and only requests
    of the debugging session were sent. *)
Definition debugging_only (w w' : World) : Prop :=
  outside_debugging (this w') = outside_debugging (this w)
  /\ outside_log (engine w') = outside_log (engine w)
  /\ closures w' = closures w
  /\ exists extra, calls (engine w') = calls (engine w) ++ extra
                   /\ forallb debugging_call extra = true.

(** ** Invariants of the manager *)

(** While pages are tracked the active index is not negative. *)
Definition index_not_negative (m : BrowserManager) : Prop :=
  pages m <> [] -> (0 <= activePageIndex m)%Z.

(** A persistent-context session has no browser handle and tracks a context;
    a recording page exists only next to a browser handle and a recording
    context. *)
Definition consistent_view
  (v : option Browser * bool * list BrowserContext * option BrowserContext * option Page)
  : Prop :=
  let '(b, persistent, cs, rc, rp) := v in
  (persistent = true -> b = None /\ cs <> [])
  /\ (b = None -> rp = None)
  /\ (rp <> None -> rc <> None).

Definition session_consistent (m : BrowserManager) : Prop :=
  consistent_view (session_view m).

(** What holds of every reachable state. *)
Definition well_formed (m : BrowserManager) : Prop :=
  index_not_negative m /\ session_consistent m.

(** ** States met on the way *)

(** No recording page. *)
Definition no_recording_page (m : BrowserManager) : Prop := recordingPage m = None.

(** Not launched, and nothing recorded. *)
Definition idle (m : BrowserManager) : Prop :=
  browser m = None /\ isPersistentContext m = false /\ recordingPage m = None.

(** No persistent context, and nothing recorded: what the connection
    strategies other than the local launch keep all along. *)
Definition plain (m : BrowserManager) : Prop :=
  isPersistentContext m = false /\ recordingPage m = None.

(** No recording with both its context and its page. *)
Definition not_recording (m : BrowserManager) : Prop :=
  recordingContext m = None \/ recordingPage m = None.

(** What the teardown steps of [close] leave as they find it, once each
    has been established. *)
Definition torn_down (m : BrowserManager) : Prop :=
  (recordingContext m = None \/ recordingPage m = None)
  /\ cdpSession m = None /\ screencastActive m = false.

(** The rules left for a page and a pattern once those with the identity of
    [h] are dropped. *)
Definition other_rules (h : RouteHandler) (rules : list RouteHandler) : list RouteHandler :=
  List.filter (fun r => negb (handler_id r =? handler_id h)%nat) rules.

(** What one call of [setScopedHeaders] that returns has done. *)
Definition scoped_headers_set (origin : string) (headers : Headers) (w w' : World) : Prop :=
  let pattern := urlPattern (engine w) origin in
  let handler := {| handler_id := closures w; handler_headers := headers |} in
  exists page,
    at_index (pages (this w)) (activePageIndex (this w)) = Some page
    /\ pages (this w') = pages (this w)
    /\ activePageIndex (this w') = activePageIndex (this w)
    /\ scopedHeaderRoutes (this w') = map_set pattern handler (scopedHeaderRoutes (this w))
    /\ closures w' = S (closures w)
    /\ url_host (engine w') = url_host (engine w)
    /\ rules_for page pattern (engine w')
       = handler :: match map_get pattern (scopedHeaderRoutes (this w)) with
                    | Some previous => other_rules previous (rules_for page pattern (engine w))
                    | None => rules_for page pattern (engine w)
                    end
    /\ calls (engine w')
       = calls (engine w)
         ++ match map_get pattern (scopedHeaderRoutes (this w)) with
            | Some previous => [PageUnroute page pattern previous]
            | None => []
            end
         ++ [PageRoute page pattern handler].

(** * Auxiliary results *)

(** ** Arrays *)

Lemma indexOf_from_range (x : nat) (l : list nat) (i : Z) :
  indexOf_from Nat.eqb x l i = (-1)%Z
  \/ (i <= indexOf_from Nat.eqb x l i < i + Z.of_nat (length l))%Z.
Proof.
  revert i. induction l as [|y t IH]; intros i; cbn; [left; reflexivity|].
  destruct (y =? x)%nat; [right; lia|].
  destruct (IH (i + 1)%Z) as [-> | H]; [left; reflexivity | right; lia].
Qed.

Lemma indexOf_from_absent (x : nat) (l : list nat) (i : Z) :
  (0 <= i)%Z -> indexOf_from Nat.eqb x l i = (-1)%Z <-> x ∉ l.
Proof.
  revert i. induction l as [|y t IH]; intros i Hi; cbn.
  - split; [intros _; apply not_elem_of_nil | reflexivity].
  - destruct (Nat.eqb_spec y x) as [->|Hne].
    + split; [lia | intros H; exfalso; apply H; left].
    + rewrite (IH (i + 1)%Z) by lia. rewrite not_elem_of_cons.
      split; [intros H; split; [congruence | exact H] | intros [_ H]; exact H].
Qed.

Lemma indexOf_range (x : nat) (l : list nat) :
  indexOf x l = (-1)%Z \/ (0 <= indexOf x l < Z.of_nat (length l))%Z.
Proof. unfold indexOf. destruct (indexOf_from_range x l 0); [left | right]; lia. Qed.

Lemma indexOf_absent (x : nat) (l : list nat) : indexOf x l = (-1)%Z <-> x ∉ l.
Proof. unfold indexOf. apply indexOf_from_absent. lia. Qed.

Lemma includes_spec (x : nat) (l : list nat) : includes x l = true <-> x ∈ l.
Proof.
  unfold includes. rewrite negb_true_iff, Z.eqb_neq, indexOf_absent.
  split; [apply dec_stable | auto].
Qed.

Lemma indexOf_from_lookup (x : nat) (l : list nat) (i : Z) :
  indexOf_from Nat.eqb x l i <> (-1)%Z -> (0 <= i)%Z ->
  l !! Z.to_nat (indexOf_from Nat.eqb x l i - i) = Some x.
Proof.
  revert i. induction l as [|y t IH]; intros i H Hi; cbn in *; [done|].
  destruct (Nat.eqb_spec y x) as [->|Hne].
  - replace (i - i)%Z with 0%Z by lia. reflexivity.
  - specialize (IH (i + 1)%Z H ltac:(lia)).
    destruct (indexOf_from_range x t (i + 1)) as [E|R]; [congruence|].
    replace (Z.to_nat (indexOf_from Nat.eqb x t (i + 1) - i))
      with (S (Z.to_nat (indexOf_from Nat.eqb x t (i + 1) - (i + 1)))) by lia.
    exact IH.
Qed.

Lemma delete_beyond {A} (i : nat) (l : list A) : length l <= i -> delete i l = l.
Proof.
  intros H. rewrite delete_take_drop, take_ge, drop_ge by lia. apply app_nil_r.
Qed.

Lemma length_splice1 {A} (i : Z) (l : list A) :
  (0 <= i < Z.of_nat (length l))%Z -> length (splice1 i l) = pred (length l).
Proof.
  intros H. unfold splice1. cbv zeta.
  destruct (Z.ltb_spec i 0); [lia|].
  rewrite Z.min_l by lia. rewrite length_delete; [lia|].
  apply lookup_lt_is_Some. lia.
Qed.

Lemma splice1_beyond {A} (i : Z) (l : list A) :
  (Z.of_nat (length l) <= i)%Z -> splice1 i l = l.
Proof.
  intros H. unfold splice1. cbv zeta.
  destruct (Z.ltb_spec i 0); [lia|].
  rewrite Z.min_r by lia. apply delete_beyond. lia.
Qed.

Lemma length_splice1_le {A} (i : Z) (l : list A) : length (splice1 i l) <= length l.
Proof.
  unfold splice1. cbv zeta.
  destruct (decide (Z.to_nat (if (i <? 0)%Z then Z.max (Z.of_nat (length l) + i) 0
     else Z.min i (Z.of_nat (length l))) < length l)) as [H|H].
  - rewrite length_delete; [lia|]. apply lookup_lt_is_Some. exact H.
  - rewrite delete_beyond; lia.
Qed.

Lemma at_index_Some {A} (l : list A) (i : Z) :
  (0 <= i < Z.of_nat (length l))%Z -> is_Some (at_index l i).
Proof.
  intros H. unfold at_index. destruct (Z.ltb_spec i 0); [lia|].
  apply lookup_lt_is_Some. lia.
Qed.

(** ** Rules for triples and invariants *)

Lemma triple_ret {A} (P : World -> Prop) (a : A) (Q : A -> World -> Prop) E :
  (forall w, P w -> Q a w) -> triple P (ret a) Q E.
Proof. intros H w Hw. cbn. auto. Qed.

Lemma triple_throw {A} (P : World -> Prop) e (Q : A -> World -> Prop)
  (E : string -> World -> Prop) :
  (forall w, P w -> E e w) -> triple P (throw e) Q E.
Proof. intros H w Hw. cbn. auto. Qed.

Lemma triple_bind {A B} (P : World -> Prop) (c : M A) (k : A -> M B) R Q E :
  triple P c R E -> (forall a, triple (R a) (k a) Q E) -> triple P (bind c k) Q E.
Proof.
  intros Hc Hk w Hw. unfold bind. specialize (Hc w Hw).
  destruct (c w) as [[a|e] w']; [apply Hk; exact Hc | exact Hc].
Qed.

Lemma triple_try {A} (P : World -> Prop) (c : M A) (h : string -> M A) R Q E :
  triple P c Q R -> (forall e, triple (R e) (h e) Q E) -> triple P (try_catch c h) Q E.
Proof.
  intros Hc Hh w Hw. unfold try_catch. specialize (Hc w Hw).
  destruct (c w) as [[a|e] w']; [exact Hc | apply Hh; exact Hc].
Qed.

Lemma triple_weaken {A} (P P' : World -> Prop) (c : M A) (Q Q' : A -> World -> Prop)
  (E E' : string -> World -> Prop) :
  triple P' c Q' E' -> (forall w, P w -> P' w) -> (forall a w, Q' a w -> Q a w) ->
  (forall e w, E' e w -> E e w) -> triple P c Q E.
Proof.
  intros H HP HQ HE w Hw. specialize (H w (HP w Hw)).
  destruct (c w) as [[a|e] w']; auto.
Qed.

Section Keeps.
Context (I : World -> Prop).

Lemma keeps_bind {A B} (c : M A) (k : A -> M B) :
  keeps I c -> (forall a, keeps I (k a)) -> keeps I (bind c k).
Proof. intros Hc Hk. eapply triple_bind; [exact Hc | exact Hk]. Qed.

Lemma keeps_try {A} (c : M A) (h : string -> M A) :
  keeps I c -> (forall e, keeps I (h e)) -> keeps I (try_catch c h).
Proof. intros Hc Hh. eapply triple_try; [exact Hc | exact Hh]. Qed.

Lemma keeps_ret {A} (a : A) : keeps I (ret a).
Proof. apply triple_ret; auto. Qed.

Lemma keeps_throw {A} e : keeps I (@throw A e).
Proof. apply triple_throw; auto. Qed.

Lemma keeps_swallow {A} (c : M A) : keeps I c -> keeps I (swallow c).
Proof.
  intros H. apply keeps_try; [apply keeps_bind; [exact H | intros; apply keeps_ret]|].
  intros; apply keeps_ret.
Qed.

Lemma keeps_when b c : keeps I c -> keeps I (when b c).
Proof. destruct b; [auto | intros _; apply keeps_ret]. Qed.

Lemma keeps_read {A} (f : BrowserManager -> A) : keeps I (read f).
Proof. intros w Hw; exact Hw. Qed.

Lemma keeps_ask {A} (f : Engine -> A) : keeps I (ask f).
Proof. intros w Hw; exact Hw. Qed.

Lemma keeps_deref {A} (o : option A) : keeps I (deref o).
Proof. destruct o; [apply keeps_ret | apply keeps_throw]. Qed.
End Keeps.

Section KeepsManager.
Context (I : BrowserManager -> Prop).

Lemma keeps_assign f : (forall m, I m -> I (f m)) -> keeps (on_manager I) (assign f).
Proof. intros H w Hw. apply H, Hw. Qed.

Lemma keeps_tell f : keeps (on_manager I) (tell f).
Proof. intros w Hw; exact Hw. Qed.

Lemma keeps_notify c : keeps (on_manager I) (notify c).
Proof. apply keeps_tell. Qed.

Lemma keeps_request c : keeps (on_manager I) (request c).
Proof. intros w Hw. unfold request. destruct (oracle _ _); exact Hw. Qed.

Lemma keeps_query c : keeps (on_manager I) (query c).
Proof. apply keeps_try; [apply keeps_request | intros; apply keeps_ret]. Qed.

Lemma keeps_new_closure : keeps (on_manager I) new_closure.
Proof. intros w Hw; exact Hw. Qed.

Lemma keeps_getenv n : keeps (on_manager I) (getenv n).
Proof. apply keeps_ask. Qed.

Lemma keeps_existsSync p : keeps (on_manager I) (existsSync p).
Proof. apply keeps_ask. Qed.

Lemma keeps_mkdirSync p : keeps (on_manager I) (mkdirSync p).
Proof. apply keeps_bind; [apply keeps_notify | intros; apply keeps_tell]. Qed.

Lemma keeps_rmSync p : keeps (on_manager I) (rmSync p).
Proof. apply keeps_bind; [apply keeps_notify | intros; apply keeps_tell]. Qed.
End KeepsManager.

Create HintDb keeps.
#[export] Hint Resolve keeps_ret keeps_throw keeps_read keeps_ask keeps_deref keeps_tell
  keeps_notify keeps_request keeps_query keeps_new_closure keeps_getenv keeps_existsSync
  keeps_mkdirSync keeps_rmSync : keeps.

Lemma keeps_for_each {A} (I : World -> Prop) (l : list A) (body : A -> M unit) :
  (forall x, keeps I (body x)) -> keeps I (for_each l body).
Proof.
  intros H. induction l as [|x l IH]; cbn; [apply keeps_ret|].
  apply keeps_bind; [apply H | intros _; exact IH].
Qed.

Ltac keeps_step :=
  lazymatch goal with
  | |- keeps _ (bind _ _) => apply keeps_bind; [| intros ?]
  | |- keeps _ (for_each _ _) => apply keeps_for_each; intros ?
  | |- keeps _ (try_catch _ _) => apply keeps_try; [| intros ?]
  | |- keeps _ (swallow _) => apply keeps_swallow
  | |- keeps _ (when _ _) => apply keeps_when
  | |- keeps _ (assign _) => apply keeps_assign; intros ? ?
  | |- keeps _ (if ?b then _ else _) => destruct b eqn:?
  | |- keeps _ (match ?x with _ => _ end) => destruct x eqn:?
  | |- keeps _ _ => solve [eauto with keeps]
  end.

Ltac keeps_auto := repeat keeps_step.

(** *** What a statement leaves alone *)

(** A statement that keeps every value of a view keeps every invariant
    that only looks at the view. *)
Lemma keeps_through_view {A V} (view : BrowserManager -> V) (c : M A)
  (I : BrowserManager -> Prop) :
  (forall v, keeps (on_manager (fun m => view m = v)) c) ->
  (forall m m', view m = view m' -> I m -> I m') ->
  keeps (on_manager I) c.
Proof.
  intros Hc HI w Hw. specialize (Hc (view (this w)) w eq_refl).
  destruct (c w) as [[a|e] w']; unfold on_manager in *;
    (eapply HI; [symmetry; exact Hc | exact Hw]).
Qed.

Ltac leaves_auto :=
  intros ?; keeps_auto;
  try match goal with
      | H : _ = _ |- _ = _ => exact H
      end.

Lemma leaves_session_setupPageTracking p : leaves_session (setupPageTracking p).
Proof. unfold setupPageTracking. leaves_auto. Qed.
Lemma leaves_registry_setupPageTracking p : leaves_registry (setupPageTracking p).
Proof. unfold setupPageTracking. leaves_auto. Qed.
Lemma leaves_session_setupContextTracking p : leaves_session (setupContextTracking p).
Proof. unfold setupContextTracking. leaves_auto. Qed.
Lemma leaves_registry_setupContextTracking p : leaves_registry (setupContextTracking p).
Proof. unfold setupContextTracking. leaves_auto. Qed.
#[export] Hint Resolve leaves_session_setupPageTracking leaves_registry_setupPageTracking
  leaves_session_setupContextTracking leaves_registry_setupContextTracking : keeps.

Lemma leaves_session_getPage : leaves_session getPage.
Proof. unfold getPage. leaves_auto. Qed.
Lemma leaves_registry_getPage : leaves_registry getPage.
Proof. unfold getPage. leaves_auto. Qed.
#[export] Hint Resolve leaves_session_getPage leaves_registry_getPage : keeps.

Lemma leaves_session_getCDPSession : leaves_session getCDPSession.
Proof. unfold getCDPSession. leaves_auto. Qed.
Lemma leaves_registry_getCDPSession : leaves_registry getCDPSession.
Proof. unfold getCDPSession. leaves_auto. Qed.
#[export] Hint Resolve leaves_session_getCDPSession leaves_registry_getCDPSession : keeps.

Lemma leaves_session_stopScreencast : leaves_session stopScreencast.
Proof. unfold stopScreencast. leaves_auto. Qed.
Lemma leaves_registry_stopScreencast : leaves_registry stopScreencast.
Proof. unfold stopScreencast. leaves_auto. Qed.
#[export] Hint Resolve leaves_session_stopScreencast leaves_registry_stopScreencast : keeps.

Lemma leaves_session_invalidateCDPSession : leaves_session invalidateCDPSession.
Proof. unfold invalidateCDPSession. leaves_auto. Qed.
Lemma leaves_registry_invalidateCDPSession : leaves_registry invalidateCDPSession.
Proof. unfold invalidateCDPSession. leaves_auto. Qed.
#[export] Hint Resolve leaves_session_invalidateCDPSession
  leaves_registry_invalidateCDPSession : keeps.

Lemma leaves_session_on_page_close p : leaves_session (on_page_close p).
Proof. unfold on_page_close. leaves_auto. Qed.
Lemma leaves_session_page_close p : leaves_session (page_close p).
Proof. unfold page_close. leaves_auto. apply leaves_session_on_page_close. Qed.
Lemma leaves_session_on_context_page p : leaves_session (on_context_page p).
Proof. unfold on_context_page. leaves_auto. Qed.
Lemma leaves_session_context_newPage c : leaves_session (context_newPage c).
Proof. unfold context_newPage. leaves_auto. apply leaves_session_on_context_page. Qed.
Lemma leaves_session_track_if_new p : leaves_session (track_if_new p).
Proof. unfold track_if_new. leaves_auto. Qed.
Lemma leaves_session_activate_last : leaves_session activate_last.
Proof. unfold activate_last. leaves_auto. Qed.
#[export] Hint Resolve leaves_session_on_page_close leaves_session_page_close
  leaves_session_on_context_page leaves_session_context_newPage
  leaves_session_track_if_new leaves_session_activate_last : keeps.

(** *** Running a statement from a given world *)

Lemma triple_wp {A} (P : World -> Prop) (c : M A) Q E :
  (forall w, P w -> wp c Q E w) -> triple P c Q E.
Proof. intros H w Hw. exact (H w Hw). Qed.

Lemma wp_bind {A B} (c : M A) (k : A -> M B) Q E w :
  wp c (fun a w' => wp (k a) Q E w') E w -> wp (bind c k) Q E w.
Proof. unfold wp, bind. destruct (c w) as [[a|e] w']; auto. Qed.

Lemma wp_try {A} (c : M A) (h : string -> M A) Q E w :
  wp c Q (fun e w' => wp (h e) Q E w') w -> wp (try_catch c h) Q E w.
Proof. unfold wp, try_catch. destruct (c w) as [[a|e] w']; auto. Qed.

Lemma wp_ret {A} (a : A) (Q : A -> World -> Prop) E w : Q a w -> wp (ret a) Q E w.
Proof. auto. Qed.

Lemma wp_throw {A} e (Q : A -> World -> Prop) (E : string -> World -> Prop) w :
  E e w -> wp (throw e) Q E w.
Proof. auto. Qed.

Lemma wp_read {A} (f : BrowserManager -> A) (Q : A -> World -> Prop) E w :
  Q (f (this w)) w -> wp (read f) Q E w.
Proof. auto. Qed.

Lemma wp_ask {A} (f : Engine -> A) (Q : A -> World -> Prop) E w :
  Q (f (engine w)) w -> wp (ask f) Q E w.
Proof. auto. Qed.

Lemma wp_assign f (Q : unit -> World -> Prop) E w :
  Q tt {| this := f (this w); engine := engine w; closures := closures w |} ->
  wp (assign f) Q E w.
Proof. auto. Qed.

Lemma wp_tell f (Q : unit -> World -> Prop) E w :
  Q tt {| this := this w; engine := f (engine w); closures := closures w |} ->
  wp (tell f) Q E w.
Proof. auto. Qed.

Lemma wp_new_closure (Q : nat -> World -> Prop) E w :
  Q (closures w) {| this := this w; engine := engine w; closures := S (closures w) |} ->
  wp new_closure Q E w.
Proof. auto. Qed.

Lemma wp_request c (Q : Reply -> World -> Prop) (E : string -> World -> Prop) w :
  (forall e, oracle (engine w) (asked (engine w)) = Fails e -> E e (logged c w)) ->
  (forall hs ts, oracle (engine w) (asked (engine w)) = Returns hs ts ->
                 Q (mkReply hs ts) (logged c w)) ->
  wp (request c) Q E w.
Proof.
  intros HE HQ. unfold wp, request.
  destruct (oracle (engine w) (asked (engine w))) eqn:Ho; [apply HE | apply HQ]; reflexivity.
Qed.

Lemma wp_query c (Q : Reply -> World -> Prop) (E : string -> World -> Prop) w :
  (forall r, Q r (logged c w)) -> wp (query c) Q E w.
Proof.
  intros HQ. unfold query. apply wp_try, wp_request; intros; [apply wp_ret|]; apply HQ.
Qed.

Lemma wp_keeps {A} (I : World -> Prop) (c : M A) (Q : A -> World -> Prop) E w :
  keeps I c -> I w -> (forall a w', I w' -> Q a w') -> (forall e w', I w' -> E e w') ->
  wp c Q E w.
Proof.
  intros Hc Hw HQ HE. specialize (Hc w Hw). unfold wp.
  destruct (c w) as [[a|e] w']; auto.
Qed.

Ltac wp_step :=
  lazymatch goal with
  | |- wp (bind _ _) _ _ _ => apply wp_bind
  | |- wp (try_catch _ _) _ _ _ => apply wp_try
  | |- wp (swallow _) _ _ _ => unfold swallow at 1
  | |- wp (when ?b _) _ _ _ => unfold when at 1
  | |- wp (ret _) _ _ _ => apply wp_ret
  | |- wp (throw _) _ _ _ => apply wp_throw
  | |- wp (read _) _ _ _ => apply wp_read
  | |- wp get_this _ _ _ => apply wp_read
  | |- wp (ask _) _ _ _ => apply wp_ask
  | |- wp (getenv _) _ _ _ => apply wp_ask
  | |- wp (existsSync _) _ _ _ => apply wp_ask
  | |- wp delivered_early _ _ _ => apply wp_ask
  | |- wp (assign _) _ _ _ => apply wp_assign
  | |- wp (tell _) _ _ _ => apply wp_tell
  | |- wp (notify _) _ _ _ => apply wp_tell
  | |- wp new_closure _ _ _ => apply wp_new_closure
  | |- wp (request _) _ _ _ => apply wp_request; [intros ? ? | intros ? ? ?]
  | |- wp (query _) _ _ _ => apply wp_query; intros ?
  | |- wp (deref ?o) _ _ _ => destruct o eqn:?; [apply wp_ret | apply wp_throw]
  | |- wp (if ?b then _ else _) _ _ _ => destruct b eqn:?
  | |- wp (match ?x with _ => _ end) _ _ _ => destruct x eqn:?
  end; cbn [this engine closures logged].

Ltac wp_run := repeat wp_step.

(** A call of a method that keeps [I]: the world after it is a new one, of
    which [I] is known. *)
Ltac wp_call I :=
  apply (wp_keeps I); [solve [auto with keeps] | | intros ? ? ? | intros ? ? ?];
  cbv beta.

(** ** The active index is not negative while there are pages *)

Lemma splice1_nil {A} (i : Z) (l : list A) : splice1 i l <> [] -> l <> [].
Proof.
  intros H ->. apply H. unfold splice1. cbn.
  destruct (i <? 0)%Z; destruct (Z.to_nat _); reflexivity.
Qed.

Lemma index_respects_registry (m m' : BrowserManager) :
  registry_view m = registry_view m' -> index_not_negative m -> index_not_negative m'.
Proof.
  unfold registry_view, index_not_negative. intros [= Hp Ha]. rewrite <- Hp, <- Ha. auto.
Qed.

Lemma keeps_index_through_registry {A} (c : M A) :
  leaves_registry c -> keeps (on_manager index_not_negative) c.
Proof. intros H. eapply keeps_through_view; [exact H | apply index_respects_registry]. Qed.
#[export] Hint Resolve keeps_index_through_registry : keeps.

#[global] Arguments indexOf : simpl never.
#[global] Arguments includes : simpl never.
#[global] Arguments splice1 : simpl never.
#[global] Arguments at_index : simpl never.
#[global] Arguments push : simpl never.

Lemma push_not_nil {A} (x : A) (l : list A) : push x l <> [].
Proof. unfold push. destruct l; discriminate. Qed.

Lemma length_push {A} (x : A) (l : list A) : length (push x l) = S (length l).
Proof. unfold push. rewrite length_app. cbn. lia. Qed.

Lemma length_nonempty {A} (l : list A) : l <> [] -> (1 <= length l)%nat.
Proof. destruct l; [congruence | cbn; lia]. Qed.

Ltac index_goal :=
  unfold on_manager, index_not_negative in *; cbn in *;
  repeat match goal with
         | H : (_ >=? _)%Z = true |- _ => apply Z.geb_le in H
         | H : (_ >? _)%Z = true |- _ => apply Z.gtb_lt in H
         | H : (_ <? _)%Z = false |- _ => apply Z.ltb_ge in H
         | H : (_ <? _)%nat = true |- _ => apply Nat.ltb_lt in H
         | H : (_ || _) = false |- _ => apply orb_false_iff in H; destruct H
         end;
  try (intros; lia);
  try (intros Hne;
       repeat match goal with
              | H : ?l <> [] -> _ |- _ =>
                  first [ specialize (H Hne)
                        | specialize (H (splice1_nil _ _ Hne)) ]
              end;
       pose proof (length_nonempty _ Hne);
       try rewrite length_push in *;
       lia).

Lemma keeps_index_on_page_close p : keeps (on_manager index_not_negative) (on_page_close p).
Proof. unfold on_page_close. keeps_auto; index_goal. Qed.
#[export] Hint Resolve keeps_index_on_page_close : keeps.

Lemma keeps_index_page_close p : keeps (on_manager index_not_negative) (page_close p).
Proof. unfold page_close. keeps_auto. Qed.
#[export] Hint Resolve keeps_index_page_close : keeps.

Lemma indexOf_push_found (p : Page) (ps : list Page) :
  (0 <= indexOf p (push p ps))%Z.
Proof.
  destruct (indexOf_range p (push p ps)) as [H|H]; [|lia].
  apply indexOf_absent in H. exfalso. apply H. unfold push. apply elem_of_app. right. left.
Qed.

Lemma keeps_index_on_context_page p :
  keeps (on_manager index_not_negative) (on_context_page p).
Proof.
  apply triple_wp. intros w Hw. unfold on_context_page, setupPageTracking.
  wp_run.
  all: try (apply (wp_keeps (on_manager index_not_negative));
            [auto with keeps | | auto | auto]).
  all: index_goal.
  all: try (intros _; apply indexOf_push_found).
  all: try (intros _; destruct (indexOf_range p (pages (this w))); lia).
  intros _. pose proof (indexOf_push_found p (pages (this w))) as Hfound.
  apply andb_false_iff in Heqb0 as [H1|H1];
    rewrite negb_false_iff, Z.eqb_eq in H1; lia.
Qed.
#[export] Hint Resolve keeps_index_on_context_page : keeps.

Lemma keeps_index_context_newPage c :
  keeps (on_manager index_not_negative) (context_newPage c).
Proof. unfold context_newPage. keeps_auto. Qed.
#[export] Hint Resolve keeps_index_context_newPage : keeps.

Lemma keeps_index_invalidateCDPSession :
  keeps (on_manager index_not_negative) invalidateCDPSession.
Proof. auto with keeps. Qed.
#[export] Hint Resolve keeps_index_invalidateCDPSession : keeps.

Lemma keeps_index_closeTab index : keeps (on_manager index_not_negative) (closeTab index).
Proof.
  apply triple_wp. intros w Hw. unfold closeTab.
  wp_run; try exact Hw.
  - wp_call (on_manager index_not_negative); [exact Hw | | assumption].
    wp_run; try assumption.
    wp_call (on_manager index_not_negative); [assumption | | assumption].
    wp_run; index_goal.
  - wp_call (on_manager index_not_negative); [exact Hw | | assumption].
    wp_run; index_goal.
Qed.
#[export] Hint Resolve keeps_index_closeTab : keeps.

(** *** Statements that do not throw *)

Lemma total_bind {A B} (c : M A) (k : A -> M B) :
  total c -> (forall a, total (k a)) -> total (bind c k).
Proof. intros Hc Hk. eapply triple_bind; [exact Hc | intros a; apply Hk]. Qed.

Lemma total_try {A} (c : M A) (h : string -> M A) :
  (forall e, total (h e)) -> total (try_catch c h).
Proof.
  intros H w _. unfold try_catch. destruct (c w) as [[a|e] w']; [exact I|].
  apply H; exact I.
Qed.

Lemma total_ret {A} (a : A) : total (ret a).
Proof. intros w _; exact I. Qed.

Lemma total_swallow {A} (c : M A) : total (swallow c).
Proof. apply total_try. intros e. apply total_ret. Qed.

Lemma total_read {A} (f : BrowserManager -> A) : total (read f).
Proof. intros w _; exact I. Qed.

Lemma total_assign f : total (assign f).
Proof. intros w _; exact I. Qed.

Lemma total_ask {A} (f : Engine -> A) : total (ask f).
Proof. intros w _; exact I. Qed.

Lemma total_tell f : total (tell f).
Proof. intros w _; exact I. Qed.

Lemma total_notify c : total (notify c).
Proof. intros w _; exact I. Qed.

Lemma total_query c : total (query c).
Proof. apply total_try. intros e. apply total_ret. Qed.

Lemma total_when b c : total c -> total (when b c).
Proof. destruct b; [auto | intros _; apply total_ret]. Qed.

Create HintDb total.
#[export] Hint Resolve total_ret total_swallow total_read total_assign total_ask total_tell
  total_notify total_query : total.

Ltac total_step :=
  lazymatch goal with
  | |- total (bind _ _) => apply total_bind; [| intros ?]
  | |- total (try_catch _ _) => apply total_try; intros ?
  | |- total (when _ _) => apply total_when
  | |- total (if ?b then _ else _) => destruct b
  | |- total (match ?x with _ => _ end) => destruct x
  | |- total _ => solve [eauto with total]
  end.

Ltac total_auto := repeat total_step.

Lemma wp_total {A} (c : M A) (Q : A -> World -> Prop) E w :
  total c -> (forall a w', Q a w') -> wp c Q E w.
Proof.
  intros Hc HQ. specialize (Hc w I). unfold wp.
  destruct (c w) as [[a|e] w']; [apply HQ | contradiction].
Qed.

Lemma keeps_and {A} (I J : World -> Prop) (c : M A) :
  keeps I c -> keeps J c -> keeps (fun w => I w /\ J w) c.
Proof.
  intros HI HJ w [Hi Hj]. specialize (HI w Hi). specialize (HJ w Hj).
  destruct (c w) as [[a|e] w']; split; assumption.
Qed.

Lemma total_for_each {A} (l : list A) (body : A -> M unit) :
  (forall x, total (body x)) -> total (for_each l body).
Proof.
  intros H. induction l as [|x l IH]; cbn; [apply total_ret|].
  apply total_bind; [apply H | intros _; exact IH].
Qed.

Lemma triple_of_total {A} (P : World -> Prop) (c : M A) Q (E E' : string -> World -> Prop) :
  total c -> triple P c Q E -> triple P c Q E'.
Proof.
  intros Ht H w Hw. specialize (H w Hw). specialize (Ht w I).
  destruct (c w) as [[a|e] w']; [exact H | contradiction].
Qed.

Lemma wp_triple {A} (P : World -> Prop) (c : M A) Q' E' (Q : A -> World -> Prop)
  (E : string -> World -> Prop) w :
  triple P c Q' E' -> P w -> (forall a w', Q' a w' -> Q a w') ->
  (forall e w', E' e w' -> E e w') -> wp c Q E w.
Proof.
  intros Hc Hw HQ HE. specialize (Hc w Hw). unfold wp.
  destruct (c w) as [[a|e] w']; auto.
Qed.

Lemma total_rmSync p : total (rmSync p).
Proof. unfold rmSync. total_auto. Qed.
Lemma total_mkdirSync p : total (mkdirSync p).
Proof. unfold mkdirSync. total_auto. Qed.
#[export] Hint Resolve total_rmSync total_mkdirSync : total.

Lemma total_on_page_close p : total (on_page_close p).
Proof. unfold on_page_close. total_auto. Qed.
#[export] Hint Resolve total_on_page_close : total.

Lemma total_stopScreencast : total stopScreencast.
Proof. unfold stopScreencast. total_auto. Qed.
#[export] Hint Resolve total_stopScreencast : total.

Lemma total_invalidateCDPSession : total invalidateCDPSession.
Proof. unfold invalidateCDPSession. total_auto. Qed.
#[export] Hint Resolve total_invalidateCDPSession : total.

Lemma total_stopRecording : total stopRecording.
Proof. unfold stopRecording, reset_recording_state. total_auto. Qed.
#[export] Hint Resolve total_stopRecording : total.

Lemma total_close_each_page n i : total (close_each_page n i).
Proof. revert i. induction n as [|n IH]; intros i; cbn; total_auto. Qed.

Lemma total_close_each_context cs : total (close_each_context cs).
Proof. induction cs as [|c cs IH]; cbn; total_auto. Qed.
#[export] Hint Resolve total_close_each_page total_close_each_context : total.

Lemma total_close : total close.
Proof. unfold close, close_browser. total_auto. Qed.
#[export] Hint Resolve total_close : total.

Lemma wp_mono {A} (c : M A) (Q Q' : A -> World -> Prop) (E E' : string -> World -> Prop) w :
  wp c Q' E' w -> (forall a w', Q' a w' -> Q a w') -> (forall e w', E' e w' -> E e w') ->
  wp c Q E w.
Proof. unfold wp. destruct (c w) as [[a|e] w']; auto. Qed.

(** ** The index invariant, method by method *)

Ltac wp_call_index := wp_call (on_manager index_not_negative).

Lemma leaves_registry_startScreencast cb o : leaves_registry (startScreencast cb o).
Proof. unfold startScreencast. leaves_auto. Qed.
Lemma leaves_session_startScreencast cb o : leaves_session (startScreencast cb o).
Proof. unfold startScreencast. leaves_auto. Qed.
Lemma leaves_registry_sendCommand s : leaves_registry (sendCommand s).
Proof. unfold sendCommand. leaves_auto. Qed.
Lemma leaves_session_sendCommand s : leaves_session (sendCommand s).
Proof. unfold sendCommand. leaves_auto. Qed.
Lemma leaves_registry_getSnapshot t r : leaves_registry (getSnapshot t r).
Proof. unfold getSnapshot. leaves_auto. Qed.
Lemma leaves_session_getSnapshot t r : leaves_session (getSnapshot t r).
Proof. unfold getSnapshot. leaves_auto. Qed.
Lemma leaves_registry_getAndClearWarnings : leaves_registry getAndClearWarnings.
Proof. unfold getAndClearWarnings. leaves_auto. Qed.
Lemma leaves_session_getAndClearWarnings : leaves_session getAndClearWarnings.
Proof. unfold getAndClearWarnings. leaves_auto. Qed.
Lemma leaves_registry_urlPattern_of o : leaves_registry (urlPattern_of o).
Proof. unfold urlPattern_of. leaves_auto. Qed.
Lemma leaves_session_urlPattern_of o : leaves_session (urlPattern_of o).
Proof. unfold urlPattern_of. leaves_auto. Qed.
#[export] Hint Resolve leaves_registry_urlPattern_of leaves_session_urlPattern_of : keeps.
Lemma leaves_registry_page_route p u h : leaves_registry (page_route p u h).
Proof. unfold page_route. leaves_auto. Qed.
Lemma leaves_session_page_route p u h : leaves_session (page_route p u h).
Proof. unfold page_route. leaves_auto. Qed.
Lemma leaves_registry_page_unroute p u h : leaves_registry (page_unroute p u h).
Proof. unfold page_unroute. leaves_auto. Qed.
Lemma leaves_session_page_unroute p u h : leaves_session (page_unroute p u h).
Proof. unfold page_unroute. leaves_auto. Qed.
#[export] Hint Resolve leaves_registry_page_route leaves_session_page_route
  leaves_registry_page_unroute leaves_session_page_unroute : keeps.
Lemma leaves_registry_setScopedHeaders o h : leaves_registry (setScopedHeaders o h).
Proof. unfold setScopedHeaders. leaves_auto. Qed.
Lemma leaves_session_setScopedHeaders o h : leaves_session (setScopedHeaders o h).
Proof. unfold setScopedHeaders. leaves_auto. Qed.
Lemma leaves_registry_clearScopedHeaders o : leaves_registry (clearScopedHeaders o).
Proof.
  unfold clearScopedHeaders. leaves_auto.
Qed.
Lemma leaves_session_clearScopedHeaders o : leaves_session (clearScopedHeaders o).
Proof.
  unfold clearScopedHeaders. leaves_auto.
Qed.
#[export] Hint Resolve leaves_registry_startScreencast leaves_session_startScreencast
  leaves_registry_sendCommand leaves_session_sendCommand
  leaves_registry_getSnapshot leaves_session_getSnapshot
  leaves_registry_getAndClearWarnings leaves_session_getAndClearWarnings
  leaves_registry_setScopedHeaders leaves_session_setScopedHeaders
  leaves_registry_clearScopedHeaders leaves_session_clearScopedHeaders : keeps.

Ltac index_run :=
  wp_run;
  repeat (wp_call_index; [first [assumption | index_goal] | .. ]; wp_run);
  try assumption; index_goal.

Lemma keeps_index_ensurePage : keeps (on_manager index_not_negative) ensurePage.
Proof.
  apply triple_wp. intros w Hw.
  unfold ensurePage, track_if_new, activate_last, setupPageTracking, setupContextTracking.
  index_run.
Qed.

Lemma keeps_index_newTab : keeps (on_manager index_not_negative) newTab.
Proof.
  apply triple_wp. intros w Hw.
  unfold newTab, track_if_new, activate_last, setupPageTracking.
  index_run.
Qed.

Lemma keeps_index_newWindow v : keeps (on_manager index_not_negative) (newWindow v).
Proof.
  apply triple_wp. intros w Hw.
  unfold newWindow, track_if_new, activate_last, setupPageTracking, setupContextTracking.
  index_run.
Qed.

Lemma keeps_index_switchTo i : keeps (on_manager index_not_negative) (switchTo i).
Proof.
  apply triple_wp. intros w Hw. unfold switchTo.
  index_run.
Qed.

Lemma keeps_index_startRecording o u :
  keeps (on_manager index_not_negative) (startRecording o u).
Proof.
  apply triple_wp. intros w Hw.
  unfold startRecording, activate_last, setupPageTracking, session_name, mkdirSync.
  index_run.
Qed.

Lemma keeps_index_stopRecording : keeps (on_manager index_not_negative) stopRecording.
Proof.
  apply triple_wp. intros w Hw.
  unfold stopRecording, reset_recording_state, rmSync.
  index_run.
Qed.
#[export] Hint Resolve keeps_index_ensurePage keeps_index_newTab keeps_index_newWindow
  keeps_index_switchTo keeps_index_startRecording keeps_index_stopRecording : keeps.

Lemma keeps_index_close_each_page n i :
  keeps (on_manager index_not_negative) (close_each_page n i).
Proof. revert i. induction n as [|n IH]; intros i; cbn; keeps_auto. Qed.

Lemma keeps_close_each_context (I : BrowserManager -> Prop) cs :
  keeps (on_manager I) (close_each_context cs).
Proof. induction cs as [|c cs IH]; cbn; keeps_auto. Qed.
#[export] Hint Resolve keeps_index_close_each_page keeps_close_each_context : keeps.

Lemma keeps_closeSessions (I : BrowserManager -> Prop) a b :
  keeps (on_manager I) (closeBrowserbaseSession a b)
  /\ keeps (on_manager I) (closeBrowserUseSession a b)
  /\ keeps (on_manager I) (closeKernelSession a b).
Proof.
  unfold closeBrowserbaseSession, closeBrowserUseSession, closeKernelSession.
  repeat split; keeps_auto.
Qed.

Lemma keeps_closeBrowserbaseSession (I : BrowserManager -> Prop) a b :
  keeps (on_manager I) (closeBrowserbaseSession a b).
Proof. apply keeps_closeSessions. Qed.
Lemma keeps_closeBrowserUseSession (I : BrowserManager -> Prop) a b :
  keeps (on_manager I) (closeBrowserUseSession a b).
Proof. apply keeps_closeSessions. Qed.
Lemma keeps_closeKernelSession (I : BrowserManager -> Prop) a b :
  keeps (on_manager I) (closeKernelSession a b).
Proof. apply keeps_closeSessions. Qed.
#[export] Hint Resolve keeps_closeBrowserbaseSession keeps_closeBrowserUseSession
  keeps_closeKernelSession : keeps.

Lemma keeps_index_close : keeps (on_manager index_not_negative) close.
Proof. unfold close, close_browser. keeps_auto; index_goal. congruence. Qed.
#[export] Hint Resolve keeps_index_close : keeps.

Lemma keeps_index_restartRecording o u :
  keeps (on_manager index_not_negative) (restartRecording o u).
Proof. unfold restartRecording. keeps_auto. Qed.
#[export] Hint Resolve keeps_index_restartRecording : keeps.

(** Connections *)

Lemma keeps_all_pages (I : BrowserManager -> Prop) cs : keeps (on_manager I) (all_pages cs).
Proof. induction cs as [|c cs IH]; cbn; keeps_auto. Qed.
Lemma keeps_pages_with_url (I : BrowserManager -> Prop) ps :
  keeps (on_manager I) (pages_with_url ps).
Proof. induction ps as [|p ps IH]; cbn; keeps_auto. Qed.
Lemma keeps_some_context_has_pages (I : BrowserManager -> Prop) cs :
  keeps (on_manager I) (some_context_has_pages cs).
Proof. induction cs as [|c cs IH]; cbn; keeps_auto. Qed.
#[export] Hint Resolve keeps_all_pages keeps_pages_with_url keeps_some_context_has_pages
  : keeps.

Lemma keeps_isCdpConnectionAlive (I : BrowserManager -> Prop) :
  keeps (on_manager I) isCdpConnectionAlive.
Proof. unfold isCdpConnectionAlive. keeps_auto. Qed.
#[export] Hint Resolve keeps_isCdpConnectionAlive : keeps.

Lemma keeps_needsCdpReconnect (I : BrowserManager -> Prop) e :
  keeps (on_manager I) (needsCdpReconnect e).
Proof. unfold needsCdpReconnect. keeps_auto. Qed.
#[export] Hint Resolve keeps_needsCdpReconnect : keeps.

Lemma keeps_needsRelaunch (I : BrowserManager -> Prop) o :
  keeps (on_manager I) (needsRelaunch o).
Proof. unfold needsRelaunch. keeps_auto. Qed.
#[export] Hint Resolve keeps_needsRelaunch : keeps.

Lemma total_setupPageTracking p : total (setupPageTracking p).
Proof. unfold setupPageTracking. total_auto. Qed.
Lemma total_setupContextTracking p : total (setupContextTracking p).
Proof. unfold setupContextTracking. total_auto. Qed.
#[export] Hint Resolve total_setupPageTracking total_setupContextTracking : total.

Lemma keeps_index_connectViaCDP e : keeps (on_manager index_not_negative) (connectViaCDP e).
Proof.
  apply triple_wp. intros w Hw. unfold connectViaCDP.
  wp_run; try exact Hw.
  wp_call_index; [exact Hw | | wp_run; assumption].
  wp_run.
  wp_call_index; [assumption | | wp_run; assumption].
  wp_run; try assumption.
  apply wp_total; [apply total_for_each; intros x; total_auto|]. intros _ w1.
  wp_run.
  apply wp_total; [apply total_for_each; intros x; total_auto|]. intros _ w2.
  wp_run. index_goal.
Qed.
#[export] Hint Resolve keeps_index_connectViaCDP : keeps.

Lemma keeps_readDevToolsActivePort (I : BrowserManager -> Prop) d :
  keeps (on_manager I) (readDevToolsActivePort d).
Proof. unfold readDevToolsActivePort. keeps_auto. Qed.
Lemma keeps_probeDebugPort (I : BrowserManager -> Prop) p :
  keeps (on_manager I) (probeDebugPort p).
Proof. unfold probeDebugPort. keeps_auto. Qed.
Lemma keeps_getChromeUserDataDirs (I : BrowserManager -> Prop) :
  keeps (on_manager I) getChromeUserDataDirs.
Proof. unfold getChromeUserDataDirs. keeps_auto. Qed.
Lemma keeps_no_chrome_found (I : BrowserManager -> Prop) :
  keeps (on_manager I) no_chrome_found.
Proof. unfold no_chrome_found. keeps_auto. Qed.
#[export] Hint Resolve keeps_readDevToolsActivePort keeps_probeDebugPort
  keeps_getChromeUserDataDirs keeps_no_chrome_found : keeps.

(** Automatic discovery only changes the manager through [connectViaCDP]. *)
Lemma keeps_autoConnectViaCDP (I : BrowserManager -> Prop) :
  (forall e, keeps (on_manager I) (connectViaCDP e)) ->
  keeps (on_manager I) autoConnectViaCDP.
Proof.
  intros Hc. unfold autoConnectViaCDP.
  assert (Hports : forall ports, keeps (on_manager I)
                     (connect_from_common_port ports no_chrome_found)).
  { induction ports as [|p ports IH]; cbn; keeps_auto. }
  assert (Hdirs : forall dirs, keeps (on_manager I)
                    (connect_from_active_port dirs
                       (connect_from_common_port [9222; 9229]%Z no_chrome_found))).
  { induction dirs as [|d dirs IH]; cbn; keeps_auto. }
  keeps_auto.
Qed.

Lemma keeps_index_autoConnectViaCDP :
  keeps (on_manager index_not_negative) autoConnectViaCDP.
Proof. apply keeps_autoConnectViaCDP. auto with keeps. Qed.
#[export] Hint Resolve keeps_index_autoConnectViaCDP : keeps.

Lemma keeps_index_first_page_or_new c :
  keeps (on_manager index_not_negative) (first_page_or_new c).
Proof. unfold first_page_or_new. keeps_auto. Qed.
#[export] Hint Resolve keeps_index_first_page_or_new : keeps.

Lemma keeps_index_adopt_context_and_page b :
  keeps (on_manager index_not_negative) (adopt_context_and_page b).
Proof. unfold adopt_context_and_page. keeps_auto. Qed.
#[export] Hint Resolve keeps_index_adopt_context_and_page : keeps.

Lemma keeps_findOrCreateKernelProfile (I : BrowserManager -> Prop) a b :
  keeps (on_manager I) (findOrCreateKernelProfile a b).
Proof. unfold findOrCreateKernelProfile. keeps_auto. Qed.
#[export] Hint Resolve keeps_findOrCreateKernelProfile : keeps.

Lemma keeps_index_connectToBrowserbase :
  keeps (on_manager index_not_negative) connectToBrowserbase.
Proof.
  apply triple_wp. intros w Hw.
  unfold connectToBrowserbase, setupPageTracking, setupContextTracking.
  index_run.
Qed.

Lemma keeps_index_connectToKernel : keeps (on_manager index_not_negative) connectToKernel.
Proof.
  apply triple_wp. intros w Hw.
  unfold connectToKernel, setupPageTracking, setupContextTracking.
  index_run.
Qed.

Lemma keeps_index_connectToBrowserUse :
  keeps (on_manager index_not_negative) connectToBrowserUse.
Proof.
  apply triple_wp. intros w Hw.
  unfold connectToBrowserUse, setupPageTracking, setupContextTracking.
  index_run.
Qed.
#[export] Hint Resolve keeps_index_connectToBrowserbase keeps_index_connectToKernel
  keeps_index_connectToBrowserUse : keeps.

Lemma keeps_session_name (I : BrowserManager -> Prop) : keeps (on_manager I) session_name.
Proof. unfold session_name. keeps_auto. Qed.
#[export] Hint Resolve keeps_session_name : keeps.

Lemma leaves_registry_auto_load_state g p : leaves_registry (auto_load_state g p).
Proof. unfold auto_load_state. leaves_auto. Qed.
Lemma leaves_session_auto_load_state g p : leaves_session (auto_load_state g p).
Proof. unfold auto_load_state. leaves_auto. Qed.
#[export] Hint Resolve leaves_registry_auto_load_state leaves_session_auto_load_state : keeps.

Lemma keeps_index_launch_local o : keeps (on_manager index_not_negative) (launch_local o).
Proof.
  apply triple_wp. intros w Hw.
  unfold launch_local, track_if_new, setupPageTracking, setupContextTracking.
  index_run.
  all: intros _; match goal with |- context [length ?l] => destruct (length l) end; lia.
Qed.
#[export] Hint Resolve keeps_index_launch_local : keeps.

Lemma keeps_index_connect o : keeps (on_manager index_not_negative) (connect o).
Proof. unfold connect. keeps_auto. Qed.
#[export] Hint Resolve keeps_index_connect : keeps.

Lemma keeps_index_launch o : keeps (on_manager index_not_negative) (launch o).
Proof. unfold launch. keeps_auto. Qed.
#[export] Hint Resolve keeps_index_launch : keeps.

Lemma keeps_index_perform op : keeps (on_manager index_not_negative) (perform op).
Proof. destruct op; cbn; keeps_auto. Qed.

(** ** The session invariant, method by method *)

Lemma keeps_consistent_through_session {A} (c : M A) :
  leaves_session c -> keeps (on_manager session_consistent) c.
Proof.
  intros H. eapply keeps_through_view; [exact H|].
  unfold session_consistent. intros m m' ->. auto.
Qed.
#[export] Hint Resolve keeps_consistent_through_session : keeps.

Lemma leaves_session_closeTab i : leaves_session (closeTab i).
Proof. unfold closeTab. leaves_auto. Qed.
Lemma leaves_session_switchTo i : leaves_session (switchTo i).
Proof. unfold switchTo. leaves_auto. Qed.
Lemma leaves_session_newTab : leaves_session newTab.
Proof. unfold newTab. leaves_auto. Qed.
Lemma leaves_session_first_page_or_new c : leaves_session (first_page_or_new c).
Proof. unfold first_page_or_new. leaves_auto. Qed.
#[export] Hint Resolve leaves_session_closeTab leaves_session_switchTo leaves_session_newTab
  leaves_session_first_page_or_new : keeps.

Ltac consistent_goal :=
  unfold on_manager, session_consistent, consistent_view, session_view in *; cbn in *;
  repeat match goal with
         | |- context [push ?x ?l] =>
             lazymatch goal with
             | H : push x l <> [] |- _ => fail
             | _ => pose proof (push_not_nil x l)
             end
         end;
  try solve [intuition congruence].

Lemma keeps_consistent_ensurePage : keeps (on_manager session_consistent) ensurePage.
Proof. unfold ensurePage. keeps_auto; consistent_goal. Qed.

Lemma keeps_consistent_newWindow v : keeps (on_manager session_consistent) (newWindow v).
Proof. unfold newWindow. keeps_auto; consistent_goal. Qed.
#[export] Hint Resolve keeps_consistent_ensurePage keeps_consistent_newWindow : keeps.

(** Knowing the session view of a world. *)
Ltac session_facts :=
  repeat match goal with
         | H : on_manager (fun m => session_view m = _) _ |- _ =>
             unfold on_manager, session_view in H; cbn in H;
             injection H as ? ? ? ? ?
         end.

Ltac wp_call_session :=
  lazymatch goal with
  | |- wp _ _ _ ?w =>
      wp_call (on_manager (fun m => session_view m = session_view (this w)));
      [reflexivity | .. ];
      session_facts
  end.

Ltac rewrite_facts :=
  repeat match goal with
         | H : browser (this ?w) = _ |- _ => rewrite H in *; clear H
         | H : isPersistentContext (this ?w) = _ |- _ => rewrite H in *; clear H
         | H : contexts (this ?w) = _ |- _ => rewrite H in *; clear H
         | H : recordingContext (this ?w) = _ |- _ => rewrite H in *; clear H
         | H : recordingPage (this ?w) = _ |- _ => rewrite H in *; clear H
         end.

Ltac consistent_run :=
  wp_run; try assumption;
  repeat (wp_call_session; wp_run);
  repeat match goal with H : oracle _ _ = _ |- _ => clear H end;
  consistent_goal;
  rewrite_facts; consistent_goal.

Lemma keeps_consistent_startRecording o u :
  keeps (on_manager session_consistent) (startRecording o u).
Proof.
  apply triple_wp. intros w Hw.
  unfold startRecording, activate_last, setupPageTracking, session_name, mkdirSync.
  consistent_run.
Qed.

Lemma keeps_consistent_stopRecording :
  keeps (on_manager session_consistent) stopRecording.
Proof.
  apply triple_wp. intros w Hw.
  unfold stopRecording, reset_recording_state, rmSync.
  consistent_run.
Qed.
#[export] Hint Resolve keeps_consistent_startRecording keeps_consistent_stopRecording : keeps.

Lemma keeps_consistent_restartRecording o u :
  keeps (on_manager session_consistent) (restartRecording o u).
Proof. unfold restartRecording. keeps_auto. Qed.
#[export] Hint Resolve keeps_consistent_restartRecording : keeps.

(** After [stopRecording] there is no recording page. *)
Lemma stopRecording_clears_page :
  triple (on_manager session_consistent) stopRecording
    (fun _ w => recordingPage (this w) = None) (fun _ w => recordingPage (this w) = None).
Proof.
  apply triple_wp. intros w Hw.
  unfold stopRecording, reset_recording_state, rmSync.
  consistent_run.
  destruct (recordingPage (this w)); [exfalso; intuition congruence | reflexivity].
Qed.

Lemma keeps_no_recording_page_through_session {A} (c : M A) :
  leaves_session c -> keeps (on_manager no_recording_page) c.
Proof.
  intros H. eapply keeps_through_view; [exact H|].
  unfold no_recording_page, session_view. intros m m' [= _ _ _ _ E]. congruence.
Qed.

Lemma keeps_no_recording_page_close_each_page n i :
  keeps (on_manager no_recording_page) (close_each_page n i).
Proof.
  revert i. induction n as [|n IH]; intros i; cbn; keeps_auto.
  apply keeps_no_recording_page_through_session. auto with keeps.
Qed.

#[export] Hint Resolve keeps_no_recording_page_through_session
  keeps_no_recording_page_close_each_page : keeps.

Lemma keeps_consistent_close : keeps (on_manager session_consistent) close.
Proof.
  apply triple_of_total with (E := fun _ _ => True); [apply total_close|].
  apply triple_wp. intros w Hw. unfold close, close_browser.
  apply wp_bind, wp_read. cbv beta.
  apply wp_bind.
  apply wp_mono with (Q' := fun _ => on_manager no_recording_page)
                     (E' := fun _ _ => True); [| | auto].
  { unfold when. destruct (is_set (recordingContext (this w))) eqn:Hset.
    - apply wp_bind.
      apply wp_triple with (1 := stopRecording_clears_page); [exact Hw | | auto].
      intros _ w1 H1. apply wp_ret. exact H1.
    - apply wp_ret. unfold on_manager, no_recording_page.
      consistent_goal.
      destruct (recordingContext (this w)) eqn:Hrc; [discriminate|].
      destruct (recordingPage (this w)); [exfalso; intuition congruence | reflexivity]. }
  intros _ w1 H1.
  wp_run; try exact I.
  all: repeat (wp_call (on_manager no_recording_page); [assumption | .. ]; wp_run).
  all: try exact I.
  all: unfold on_manager, no_recording_page in *; consistent_goal.
Qed.
#[export] Hint Resolve keeps_consistent_close : keeps.

Lemma idle_plain m : idle m -> plain m.
Proof. unfold idle, plain. tauto. Qed.

Lemma plain_consistent m : plain m -> session_consistent m.
Proof. unfold plain. intros [H1 H2]. consistent_goal. Qed.

Lemma not_launched_idle m : session_consistent m -> isLaunched m = false -> idle m.
Proof.
  unfold isLaunched, idle. intros H Hl. apply orb_false_iff in Hl as [Hb Hp].
  destruct (browser m) eqn:Eb; [discriminate|]. consistent_goal.
Qed.

Lemma keeps_plain_through_session {A} (c : M A) :
  leaves_session c -> keeps (on_manager plain) c.
Proof.
  intros H. eapply keeps_through_view; [exact H|].
  unfold plain, session_view. intros m m' [= _ E1 _ _ E2]. rewrite <- E1, <- E2. auto.
Qed.
#[export] Hint Resolve keeps_plain_through_session : keeps.

Ltac plain_goal := unfold on_manager, plain in *; cbn in *; try assumption.

Lemma keeps_plain_connectViaCDP e : keeps (on_manager plain) (connectViaCDP e).
Proof.
  unfold connectViaCDP. keeps_auto; plain_goal.
Qed.
#[export] Hint Resolve keeps_plain_connectViaCDP : keeps.

Lemma keeps_plain_autoConnectViaCDP : keeps (on_manager plain) autoConnectViaCDP.
Proof. apply keeps_autoConnectViaCDP. auto with keeps. Qed.

Lemma leaves_session_adopt_context_and_page b :
  leaves_session (adopt_context_and_page b).
Proof. unfold adopt_context_and_page. leaves_auto. Qed.
#[export] Hint Resolve leaves_session_adopt_context_and_page : keeps.

Lemma keeps_plain_connectToBrowserbase : keeps (on_manager plain) connectToBrowserbase.
Proof. unfold connectToBrowserbase. keeps_auto; plain_goal. Qed.
Lemma keeps_plain_connectToKernel : keeps (on_manager plain) connectToKernel.
Proof. unfold connectToKernel. keeps_auto; plain_goal. Qed.
Lemma keeps_plain_connectToBrowserUse : keeps (on_manager plain) connectToBrowserUse.
Proof. unfold connectToBrowserUse. keeps_auto; plain_goal. Qed.
#[export] Hint Resolve keeps_plain_autoConnectViaCDP keeps_plain_connectToBrowserbase
  keeps_plain_connectToKernel keeps_plain_connectToBrowserUse : keeps.

Lemma triple_of_keeps_plain {A} (c : M A) :
  keeps (on_manager plain) c ->
  triple (on_manager idle) c (fun _ => on_manager session_consistent)
         (fun _ => on_manager session_consistent).
Proof.
  intros H. eapply triple_weaken; [exact H | | |]; unfold on_manager; cbv beta.
  - intros w. apply idle_plain.
  - intros _ w. apply plain_consistent.
  - intros _ w. apply plain_consistent.
Qed.

Lemma launch_local_consistent o :
  triple (on_manager idle) (launch_local o) (fun _ => on_manager session_consistent)
         (fun _ => on_manager session_consistent).
Proof.
  apply triple_wp. intros w [Hb [Hp Hr]].
  unfold launch_local, track_if_new, setupPageTracking, setupContextTracking, session_name.
  wp_run.
  all: repeat (wp_call_session; wp_run).
  all: repeat match goal with H : oracle _ _ = _ |- _ => clear H end.
  all: consistent_goal.
  all: rewrite_facts; consistent_goal.
Qed.

Lemma connect_consistent o :
  triple (on_manager idle) (connect o) (fun _ => on_manager session_consistent)
         (fun _ => on_manager session_consistent).
Proof.
  unfold connect.
  destruct (truthy (cdpEndpoint_of o)); [apply triple_of_keeps_plain; auto with keeps|].
  destruct (is_true_option (LaunchCommand.autoConnect o));
    [apply triple_of_keeps_plain; auto with keeps|].
  eapply triple_bind with (R := fun _ => on_manager idle).
  { intros w Hw. exact Hw. }
  intros fromEnv.
  repeat (case_bool_decide; [apply triple_of_keeps_plain; auto with keeps|]).
  apply launch_local_consistent.
Qed.

Lemma close_idle :
  triple (on_manager session_consistent) close (fun _ => on_manager idle)
         (fun _ => on_manager idle).
Proof.
  apply triple_of_total with (E := fun _ _ => True); [apply total_close|].
  apply triple_wp. intros w Hw. unfold close, close_browser.
  apply wp_bind, wp_read. cbv beta.
  apply wp_bind.
  apply wp_mono with (Q' := fun _ => on_manager no_recording_page)
                     (E' := fun _ _ => True); [| | auto].
  { unfold when. destruct (is_set (recordingContext (this w))) eqn:Hset.
    - apply wp_bind.
      apply wp_triple with (1 := stopRecording_clears_page); [exact Hw | | auto].
      intros _ w1 H1. apply wp_ret. exact H1.
    - apply wp_ret. unfold on_manager, no_recording_page.
      consistent_goal.
      destruct (recordingContext (this w)) eqn:Hrc; [discriminate|].
      destruct (recordingPage (this w)); [exfalso; intuition congruence | reflexivity]. }
  intros _ w1 H1.
  wp_run; try exact I.
  all: repeat (wp_call (on_manager no_recording_page); [assumption | .. ]; wp_run).
  all: try exact I.
  all: unfold on_manager, no_recording_page, idle in *; cbn; auto.
Qed.

Lemma keeps_consistent_launch o : keeps (on_manager session_consistent) (launch o).
Proof.
  unfold launch.
  repeat match goal with
         | |- keeps _ (if ?b then _ else _) => destruct b; [apply keeps_throw|]
         end.
  apply triple_wp. intros w Hw.
  apply wp_bind, wp_read. cbv beta.
  destruct (isLaunched (this w)) eqn:Hl.
  - apply wp_bind.
    apply (wp_keeps (on_manager session_consistent));
      [auto with keeps | exact Hw | | auto].
    intros relaunch w1 H1. destruct relaunch.
    + apply wp_bind.
      apply wp_triple with (1 := close_idle); [exact H1 | |].
      * intros _ w2 H2. apply wp_triple with (1 := connect_consistent o); auto.
      * intros e w2 H2. apply plain_consistent, idle_plain, H2.
    + apply (wp_keeps (on_manager session_consistent)); [| exact H1 | auto | auto].
      unfold when. destruct (is_true_option _); keeps_auto.
  - apply wp_triple with (1 := connect_consistent o); auto.
    apply not_launched_idle; assumption.
Qed.
#[export] Hint Resolve keeps_consistent_launch : keeps.

Lemma keeps_consistent_perform op : keeps (on_manager session_consistent) (perform op).
Proof. destruct op; cbn; keeps_auto. Qed.

(** ** Every reachable state is well formed *)

Theorem reachable_well_formed (w : World) : reachable w -> well_formed (this w).
Proof.
  induction 1 as [e n | w op Hr [Hi Hs] | w e Hr IH].
  - split; [intros H; exfalso; apply H; reflexivity | consistent_goal].
  - split.
    + pose proof (keeps_index_perform op w Hi) as H.
      unfold after. destruct (perform op w) as [[a|e] w']; exact H.
    + pose proof (keeps_consistent_perform op w Hs) as H.
      unfold after. destruct (perform op w) as [[a|e] w']; exact H.
  - exact IH.
Qed.

(** * Properties *)

(** ** Closing the last tab *)



(** ** Starting a recording *)

(** Claim C7.  [startRecording] fails when a recording is in progress, when
    there is no browser handle, when the output path exists on disk, or
    when the output path does not end in [.webm]; and then nothing has
    happened: the manager, the disk and the log of requests are unchanged,
    so no recording context, page or temp directory was created. *)
Theorem startRecording_rejects (w : World) (outputPath : string) (url : option string) :
  isRecording (this w) = true
  \/ browser (this w) = None
  \/ existsb (String.eqb outputPath) (files (engine w)) = true
  \/ endsWith outputPath ".webm" = false ->
  exists message, startRecording outputPath url w = (Throw message, w).
Proof.
  intros H. unfold startRecording, bind, get_this, read, existsSync, ask, isRecording in *.
  cbn.
  destruct (is_set (recordingContext (this w))) eqn:Hrec; [eexists; reflexivity|].
  destruct (browser (this w)) as [b|] eqn:Hb; [|eexists; reflexivity].
  cbn.
  destruct (existsb (String.eqb outputPath) (files (engine w))) eqn:Hfile;
    [eexists; reflexivity|].
  destruct (endsWith outputPath ".webm") eqn:Hext; [|eexists; reflexivity].
  destruct H as [H|[H|[H|H]]]; discriminate.
Qed.

Lemma startRecording_rejects_witness :
  exists message,
    startRecording "/tmp/out.mp4" None (one_tab false) = (Throw message, one_tab false).
Proof.
  apply (startRecording_rejects (one_tab false) "/tmp/out.mp4" None).
  right; right; right. reflexivity.
Defined.

(** ** Launch options that cannot be honoured *)




(** ** Closing *)

Ltac manager_goal :=
  unfold on_manager, torn_down, not_recording in *; cbn in *;
  repeat match goal with
         | H : negb _ = true |- _ => apply negb_true_iff in H
         | H : negb _ = false |- _ => apply negb_false_iff in H
         end;
  intuition (auto; congruence).

Lemma keeps_torn_down_close_each_page n i :
  keeps (on_manager torn_down) (close_each_page n i).
Proof.
  revert i. induction n as [|n IH]; intros i; cbn; [apply keeps_ret|].
  unfold page_close, on_page_close. keeps_auto; manager_goal.
Qed.

Lemma keeps_torn_down_close_each_context cs :
  keeps (on_manager torn_down) (close_each_context cs).
Proof. induction cs as [|c cs IH]; cbn; keeps_auto. Qed.
#[export] Hint Resolve keeps_torn_down_close_each_page keeps_torn_down_close_each_context
  : keeps.

Lemma keeps_not_recording_through_session {A} (c : M A) :
  leaves_session c -> keeps (on_manager not_recording) c.
Proof.
  intros H. eapply keeps_through_view; [exact H|].
  unfold not_recording, session_view. intros m m' [= _ _ _ E1 E2]. congruence.
Qed.

Lemma stopRecording_not_recording :
  triple (fun _ => True) stopRecording (fun _ => on_manager not_recording)
         (fun _ _ => False).
Proof.
  apply triple_wp. intros w _.
  unfold stopRecording, reset_recording_state, rmSync, page_close, on_page_close.
  apply wp_bind, wp_read. cbv beta.
  destruct (recordingContext (this w)) as [rc|] eqn:Hrc;
    [destruct (recordingPage (this w)) as [rp|] eqn:Hrp|].
  - apply wp_try.
    apply wp_mono with (Q' := fun _ => on_manager not_recording) (E' := fun _ _ => True).
    + wp_run; try exact I.
      all: try (apply (wp_keeps (on_manager not_recording));
                [apply keeps_not_recording_through_session; auto with keeps
                | | intros; wp_run | intros; exact I]).
      all: manager_goal.
    + auto.
    + intros e w' _. wp_run; manager_goal.
  - apply wp_ret. manager_goal.
  - apply wp_ret. manager_goal.
Qed.

Lemma stopScreencast_stops :
  triple (on_manager not_recording) stopScreencast
    (fun _ w => not_recording (this w) /\ screencastActive (this w) = false)
    (fun _ _ => False).
Proof.
  apply triple_of_total with (E := fun _ _ => True); [apply total_stopScreencast|].
  apply triple_wp. intros w Hw.
  unfold stopScreencast, getCDPSession, getPage.
  wp_run; try exact I; manager_goal.
Qed.

Lemma close_settles :
  triple (fun _ => True) close (fun _ => on_manager settled) (fun _ _ => False).
Proof.
  apply triple_of_total with (E := fun _ _ => True); [apply total_close|].
  apply triple_wp. intros w _. unfold close, close_browser.
  apply wp_bind, wp_read. cbv beta.
  apply wp_bind.
  apply wp_mono with (Q' := fun _ => on_manager not_recording) (E' := fun _ _ => True);
    [| | auto].
  { unfold when. destruct (is_set (recordingContext (this w))) eqn:Hset.
    - apply wp_bind.
      apply wp_triple with (1 := stopRecording_not_recording); [exact I | | auto].
      intros _ w1 H1. apply wp_ret. exact H1.
    - apply wp_ret. destruct (recordingContext (this w)) eqn:Hrc; [discriminate|].
      left. exact Hrc. }
  intros _ w1 H1.
  apply wp_bind, wp_read. cbv beta.
  apply wp_bind.
  apply wp_mono with (Q' := fun _ w => not_recording (this w) /\ screencastActive (this w) = false)
                     (E' := fun _ _ => True); [| | auto].
  { unfold when. destruct (screencastActive (this w1)) eqn:Hactive.
    - apply wp_triple with (1 := stopScreencast_stops); [exact H1 | auto | contradiction].
    - apply wp_ret. split; assumption. }
  intros _ w2 [H2 H2'].
  apply wp_bind, wp_read. cbv beta.
  apply wp_bind.
  apply wp_mono with (Q' := fun _ => on_manager torn_down) (E' := fun _ _ => True); [| | auto].
  { wp_run; manager_goal. }
  intros _ w3 H3.
  wp_run; try exact I.
  all: repeat (wp_call (on_manager torn_down); [first [assumption | manager_goal] | .. ]; wp_run).
  all: try exact I.
  all: unfold settled, closed; manager_goal.
Qed.

Lemma close_settled (w : World) : settled (this w) -> close w = (Ok tt, w).
Proof.
  destruct w as [m e n].
  destruct m as [b ce pc bs bk us uk ks kk cs ps ai rm ls sh cdp sa fc fh rc rp rop rtd lw].
  unfold settled, closed. cbn.
  intros ((? & ? & ? & ? & ? & ? & ? & ? & ? & ? & ?) & ? & ? & ? & ? & ? & ? & Hrec).
  subst. destruct Hrec as [-> | ->]; [reflexivity|].
  destruct rc; reflexivity.
Qed.

(** Claim C5.  From every state, [close] returns, and so does a second
    [close] right after it; after each of them no page and no context is
    tracked and the browser handle, the endpoint, the identifiers and keys
    of the remote sessions and the persistent-context flag are reset; and
    the second call changes nothing at all. *)
Theorem close_twice (w : World) :
  exists w1 w2,
    close w = (Ok tt, w1) /\ close w1 = (Ok tt, w2)
    /\ closed (this w1) /\ closed (this w2) /\ w2 = w1.
Proof.
  pose proof (close_settles w I) as H.
  destruct (close w) as [[[]|e] w1] eqn:Hclose; [|contradiction].
  exists w1, w1. pose proof (close_settled w1 H) as H1.
  repeat split; try assumption; apply H.
Qed.

(** ** A closed page leaves the sequence *)

Lemma indexOf_from_first (x : nat) (l : list nat) (i : Z) :
  x ∈ l ->
  exists l1 l2, l = l1 ++ x :: l2 /\ (x ∉ l1)
                /\ indexOf_from Nat.eqb x l i = (i + Z.of_nat (length l1))%Z.
Proof.
  revert i. induction l as [|y t IH]; intros i Hin; [inversion Hin|].
  cbn. destruct (Nat.eqb_spec y x) as [->|Hne].
  - exists [], t. repeat split; [apply not_elem_of_nil | cbn; lia].
  - apply elem_of_cons in Hin as [Heq|Hin]; [congruence|].
    destruct (IH (i + 1)%Z Hin) as (l1 & l2 & -> & Hl1 & Hi).
    exists (y :: l1), l2. repeat split.
    + intros [?|?]%elem_of_cons; [congruence | contradiction].
    + rewrite Hi. cbn [length]. lia.
Qed.

Lemma splice1_middle {A} (l1 l2 : list A) (x : A) :
  splice1 (Z.of_nat (length l1)) (l1 ++ x :: l2) = l1 ++ l2.
Proof.
  unfold splice1. cbv zeta.
  destruct (Z.ltb_spec (Z.of_nat (length l1)) 0); [lia|].
  rewrite Z.min_l by (rewrite length_app; cbn; lia).
  rewrite Nat2Z.id. clear H. induction l1 as [|y l1 IH]; cbn; [reflexivity|].
  f_equal. exact IH.
Qed.

Lemma at_index_live (l : list nat) (i : Z) :
  (0 <= i < Z.of_nat (length l))%Z -> exists x, at_index l i = Some x /\ x ∈ l.
Proof.
  intros H. destruct (at_index_Some l i H) as [x Hx]. exists x. split; [exact Hx|].
  unfold at_index in Hx. destruct (i <? 0)%Z; [discriminate|].
  eapply list_elem_of_lookup_2, Hx.
Qed.

Lemma live_of_range (m : BrowserManager) :
  (pages m <> [] -> (0 <= activePageIndex m < Z.of_nat (length (pages m)))%Z) ->
  active_page_live m.
Proof.
  intros H Hne. specialize (H Hne). split; [exact H | apply at_index_live, H].
Qed.

Lemma on_page_close_removes (w : World) (page : Page) :
  index_not_negative (this w) -> page ∈ pages (this w) ->
  removed_from page (pages (this w)) (pages (this (after (on_page_close page) w)))
  /\ active_page_live (this (after (on_page_close page) w)).
Proof.
  intros Hindex Hin.
  destruct (indexOf_from_first page (pages (this w)) 0 Hin) as (l1 & l2 & Hpages & Hl1 & Hi).
  assert (Hne : pages (this w) <> []) by (rewrite Hpages; destruct l1; discriminate).
  specialize (Hindex Hne).
  rewrite Z.add_0_l in Hi.
  unfold after, on_page_close, bind, read, when, indexOf, get_this, assign. cbn.
  rewrite Hi.
  destruct (Z.eqb_spec (Z.of_nat (length l1)) (-1)) as [|_]; [lia|]. cbn.
  rewrite Hpages, splice1_middle.
  destruct (_ >=? _)%Z eqn:Hge; cbn.
  - split; [exists l1, l2; auto|]. apply live_of_range. cbn. intros Hne'.
    apply length_nonempty in Hne'. lia.
  - rewrite Z.geb_leb in Hge. apply Z.leb_gt in Hge.
    split; [exists l1, l2; auto|]. apply live_of_range. cbn. intros _. lia.
Qed.

Lemma keeps_True {A} (c : M A) : keeps (fun _ => True) c.
Proof. intros w _. destruct (c w) as [[a|e] w']; exact I. Qed.

Lemma closeTab_below_end (index : option Z) :
  triple (fun _ => True) (closeTab index)
    (fun _ w => (activePageIndex (this w) < Z.of_nat (length (pages (this w))))%Z
                \/ pages (this w) = [])
    (fun _ _ => True).
Proof.
  apply triple_wp. intros w _. unfold closeTab.
  wp_run; try exact I.
  all: repeat (apply (wp_keeps (fun _ => True));
               [apply keeps_True | exact I | intros ? ? _ | intros ? ? _]; wp_run);
    try exact I.
  all: repeat match goal with
              | H : (_ >=? _)%Z = true |- _ => apply Z.geb_le in H
              | H : (_ >=? _)%Z = false |- _ => rewrite Z.geb_leb in H; apply Z.leb_gt in H
              end.
  all: cbn in *.
  all: try (left; lia).
  all: match goal with
       | |- _ \/ ?l = [] => destruct l eqn:Hs; [right; reflexivity | left; cbn [length] in *; lia]
       end.
Qed.

Lemma reachable_perform_all (ops : list Operation) (w : World) :
  reachable w -> reachable (perform_all ops w).
Proof.
  revert w. induction ops as [|op ops IH]; intros w Hw; cbn; [exact Hw|].
  apply IH, reachable_perform, Hw.
Qed.

Lemma on_page_close_untracked (w : World) (page : Page) :
  page ∉ pages (this w) -> on_page_close page w = (Ok tt, w).
Proof.
  intros H. apply indexOf_absent in H.
  unfold on_page_close, bind, read, when. cbn. rewrite H. reflexivity.
Qed.



(** ** Persistent contexts *)



(** ** Scoped headers *)

Lemma map_get_set {V} (k : string) (v : V) (m : list (string * V)) :
  map_get k (map_set k v m) = Some v.
Proof.
  induction m as [|[k' v'] t IH]; cbn.
  - rewrite String.eqb_refl. reflexivity.
  - destruct (String.eqb k' k) eqn:E; cbn; [rewrite String.eqb_refl | rewrite E]; auto.
Qed.

Lemma rules_for_unroute (page : Page) (pattern : string) (h : RouteHandler)
  (l : list (Page * string * RouteHandler)) :
  map snd (List.filter (fun rule => (rule.1.1 =? page)%nat && String.eqb rule.1.2 pattern)
             (List.filter (fun r => negb (same_rule page pattern h r)) l))
  = other_rules h
      (map snd (List.filter (fun rule => (rule.1.1 =? page)%nat && String.eqb rule.1.2 pattern)
                            l)).
Proof.
  induction l as [|[[p s] r] l IH]; [reflexivity|].
  unfold same_rule in *. cbn in *.
  destruct ((p =? page)%nat && String.eqb s pattern) eqn:E; cbn.
  - destruct (handler_id r =? handler_id h)%nat; cbn; [exact IH|].
    rewrite E. cbn. f_equal. exact IH.
  - rewrite E. exact IH.
Qed.

Lemma setScopedHeaders_once (origin : string) (headers : Headers) (w : World) :
  wp (setScopedHeaders origin headers) (fun _ => scoped_headers_set origin headers w)
     (fun _ _ => True) w.
Proof.
  unfold setScopedHeaders, getPage, urlPattern_of, page_unroute, page_route.
  wp_run; try exact I.
  all: simplify_eq.
  all: unfold scoped_headers_set; cbn.
  all: eexists; repeat split; try reflexivity; try eassumption.
  all: unfold rules_for; cbn; rewrite ?Nat.eqb_refl, ?String.eqb_refl; cbn.
  all: repeat match goal with H : map_get _ _ = _ |- _ => rewrite H end; try reflexivity.
  all: try (rewrite <- app_assoc; reflexivity).
  all: try (rewrite rules_for_unroute; reflexivity).
Qed.

Lemma urlPattern_same_host (e e' : Engine) (origin : string) :
  url_host e' = url_host e -> urlPattern e' origin = urlPattern e origin.
Proof. intros H. unfold urlPattern. rewrite H. reflexivity. Qed.

Lemma other_rules_self (h : RouteHandler) : other_rules h [h] = [].
Proof. unfold other_rules. cbn. rewrite Nat.eqb_refl. reflexivity. Qed.



(** ** What dropping the debugging session leaves alone *)

Ltac log_goal :=
  cbn; rewrite <- ?app_assoc; eexists; split; [reflexivity | reflexivity].

Lemma invalidateCDPSession_debugging (w : World) :
  wp invalidateCDPSession (fun _ => debugging_only w) (fun _ => debugging_only w) w.
Proof.
  unfold invalidateCDPSession, stopScreencast, getCDPSession, getPage.
  wp_run.
  all: unfold debugging_only; repeat split; try reflexivity.
  all: try (exists []; rewrite app_nil_r; split; reflexivity).
  all: log_goal.
Qed.

Lemma invalidateCDPSession_debugging_only (w : World) :
  wp invalidateCDPSession (fun _ => debugging_only w) (fun _ _ => False) w.
Proof.
  pose proof (invalidateCDPSession_debugging w) as H.
  pose proof (total_invalidateCDPSession w I) as Htotal.
  unfold wp in *. destruct (invalidateCDPSession w) as [[a|e] w']; assumption.
Qed.

Lemma debugging_only_manager (w w' : World) :
  debugging_only w w' ->
  pages (this w') = pages (this w) /\ activePageIndex (this w') = activePageIndex (this w)
  /\ contexts (this w') = contexts (this w) /\ browser (this w') = browser (this w)
  /\ isPersistentContext (this w') = isPersistentContext (this w)
  /\ recordingContext (this w') = recordingContext (this w)
  /\ recordingPage (this w') = recordingPage (this w)
  /\ recordingOutputPath (this w') = recordingOutputPath (this w)
  /\ recordingTempDir (this w') = recordingTempDir (this w).
Proof.
  intros [H _]. unfold outside_debugging in H.
  repeat split;
    [ apply (f_equal pages) in H | apply (f_equal activePageIndex) in H
    | apply (f_equal contexts) in H | apply (f_equal browser) in H
    | apply (f_equal isPersistentContext) in H | apply (f_equal recordingContext) in H
    | apply (f_equal recordingPage) in H | apply (f_equal recordingOutputPath) in H
    | apply (f_equal recordingTempDir) in H ]; exact H.
Qed.

Lemma debugging_only_engine (w w' : World) :
  debugging_only w w' ->
  files (engine w') = files (engine w) /\ oracle (engine w') = oracle (engine w)
  /\ exists extra, calls (engine w') = calls (engine w) ++ extra
                   /\ forallb debugging_call extra = true.
Proof.
  intros (_ & H & _ & Hlog). unfold outside_log in H.
  repeat split; [apply (f_equal files) in H | apply (f_equal oracle) in H | exact Hlog];
    exact H.
Qed.

(** ** Recovery from a stale session *)

Lemma calls_since_app (w w' : World) (extra : list Call) :
  calls (engine w') = calls (engine w) ++ extra -> calls_since w w' = extra.
Proof. intros H. unfold calls_since. rewrite H. apply drop_app_length. Qed.

Lemma debugging_creates_no_page (extra : list Call) :
  forallb debugging_call extra = true -> List.filter creates_page extra = [].
Proof.
  induction extra as [|c extra IH]; [reflexivity|]. cbn.
  intros [Hc Hextra]%andb_true_iff. rewrite (IH Hextra). destruct c; try discriminate; reflexivity.
Qed.

Lemma debugging_creates_no_context (extra : list Call) :
  forallb debugging_call extra = true -> List.filter creates_context extra = [].
Proof.
  induction extra as [|c extra IH]; [reflexivity|]. cbn.
  intros [Hc Hextra]%andb_true_iff. rewrite (IH Hextra). destruct c; try discriminate; reflexivity.
Qed.

Lemma at_index_last {A} (l : list A) : at_index l (Z.of_nat (length l) - 1) = last l.
Proof.
  unfold at_index. destruct l as [|x l]; [reflexivity|].
  destruct (Z.ltb_spec (Z.of_nat (length (x :: l)) - 1) 0) as [H|H]; [cbn in H; lia|].
  rewrite last_lookup. f_equal. cbn. lia.
Qed.

Lemma not_answers (e : Engine) (n : nat) (message : string) :
  oracle e n = Fails message -> ~ answers e.
Proof. intros H Hans. destruct (Hans n) as (hs & ts & Hn). congruence. Qed.

Lemma includes_push (x : nat) (l : list nat) : includes x (push x l) = true.
Proof. apply includes_spec. unfold push. apply elem_of_app. right. left. Qed.

Lemma includes_nil (x : nat) : includes x [] = false.
Proof. reflexivity. Qed.

Ltac use_debugging :=
  cbv beta in *;
  repeat match goal with
         | H : debugging_only _ _ |- _ =>
             let Hm := fresh "Hm" in
             let He := fresh "He" in
             pose proof (debugging_only_manager _ _ H) as Hm;
             pose proof (debugging_only_engine _ _ H) as He;
             clear H;
             destruct Hm as (? & ? & ? & ? & ? & ? & ? & ? & ?);
             destruct He as (? & ? & ? & ? & ?)
         end;
  cbn in *.

Ltac rewrite_manager :=
  repeat match goal with
         | H : _ (this ?w) = _ |- _ => is_var w; rewrite H in *
         | H : _ (engine ?w) = _ |- _ => is_var w; rewrite H in *
         end.

Ltac calls_goal :=
  erewrite calls_since_app
    by (cbn; repeat match goal with H : calls (engine _) = _ |- _ => rewrite H end;
        rewrite <- ?app_assoc; reflexivity);
  rewrite ?List.filter_app; cbn;
  rewrite ?debugging_creates_no_page, ?debugging_creates_no_context by assumption;
  try reflexivity.

Lemma ensurePage_stale (w : World) :
  session_consistent (this w) -> pages (this w) = [] -> isLaunched (this w) = true ->
  wp ensurePage (fun _ => recovered w) (fun _ _ => ~ answers (engine w)) w.
Proof.
  intros Hsession Hpages Hlaunched.
  unfold ensurePage, context_newPage, on_context_page, track_if_new, activate_last,
    setupPageTracking, setupContextTracking.
  cbv zeta. wp_run.
  all: try (eapply wp_mono;
            [ apply invalidateCDPSession_debugging_only
            | intros ? ? Hdebug; wp_run
            | intros ? ? [] ]).
  all: try (rewrite Hpages in *; discriminate).
  all: try match goal with
           | H : oracle _ _ = Fails _ |- ~ answers _ => exact (not_answers _ _ _ H)
           end.
  all: try (unfold isLaunched in Hlaunched;
            destruct (is_set (browser (this w))), (isPersistentContext (this w));
            discriminate).
  all: use_debugging.
  all: rewrite ?at_index_last in *.
  all: unfold recovered; cbn.
  all: rewrite_manager; rewrite ?includes_push, ?includes_nil in *; try discriminate.
  all: unfold push in *; cbn in *.
  all: try match goal with H : last _ = Some _ |- _ => rewrite H end.
  all: try (destruct (contexts (this w)) eqn:Hcontexts; [|discriminate]; cbn in *).
  all: try match goal with
           | H : oracle _ _ = Fails _ |- ~ answers _ => exact (not_answers _ _ _ H)
           end.
  all: try (eexists _, _; repeat split; try reflexivity; calls_goal; fail).
  all: try (eexists _, _; repeat split; try reflexivity; try calls_goal;
            eexists; split; [reflexivity | calls_goal]; fail).
  all: try (apply last_None in Heqo; rewrite Heqo in *; discriminate).
  all: try (exfalso; destruct Hsession as [Hp _];
            destruct (isPersistentContext (this w));
            [destruct Hp as [_ Hp]; [reflexivity | apply Hp; reflexivity] | discriminate]).
  all: eexists _, _; repeat split; try reflexivity; try calls_goal.
  all: eexists; split; [reflexivity | try calls_goal; reflexivity].
Qed.

(** Claim C2.  In a reachable state that tracks pages, [ensurePage] does
    nothing.  In a reachable state that tracks no page while [isLaunched]
    is true, [ensurePage] returns whenever the engine answers; and when it
    returns it has asked for exactly one page, of the last context of the
    list, or, the list being empty, of a context it has asked the browser
    for and tracks from then on; that page is the only page tracked and the
    active index is 0, its index. *)
Theorem ensurePage_recovers (w : World) :
  reachable w ->
  (pages (this w) <> [] -> ensurePage w = (Ok tt, w))
  /\ (pages (this w) = [] -> isLaunched (this w) = true ->
      (answers (engine w) -> exists w', ensurePage w = (Ok tt, w'))
      /\ (forall w', ensurePage w = (Ok tt, w') -> recovered w w')).
Proof.
  intros Hw. split.
  - intros Hne. unfold ensurePage, bind, get_this, read. cbn.
    destruct (pages (this w)); [contradiction | reflexivity].
  - intros Hpages Hlaunched.
    destruct (reachable_well_formed _ Hw) as [_ Hsession].
    pose proof (ensurePage_stale w Hsession Hpages Hlaunched) as H.
    unfold wp in H. destruct (ensurePage w) as [[[]|e] w1]; split.
    + intros _. exists w1. reflexivity.
    + intros w' [= <-]. exact H.
    + intros Hanswers. contradiction.
    + intros w' [=].
Qed.

Lemma ensurePage_recovers_witness :
  (exists w', ensurePage (stale false) = (Ok tt, w'))
  /\ recovered (stale false) (after ensurePage (stale false)).
Proof.
  destruct (ensurePage_recovers (stale false)) as [_ H].
  - apply (reachable_perform_all [Launch default_options; PageClosed 102%nat]), reachable_new.
  - destruct H as [Hreturns Hrecovered]; [reflexivity | reflexivity |].
    split.
    + apply Hreturns. intros n. eexists _, _. reflexivity.
    + apply Hrecovered. vm_compute. reflexivity.
Defined.


(** ** Stopping a recording *)

Lemma without_absent (x : nat) (l : list nat) : x ∉ l -> without x l = l.
Proof.
  induction l as [|y l IH]; [reflexivity|]. intros H.
  apply not_elem_of_cons in H as [Hne Hl]. cbn.
  destruct (Nat.eqb_spec y x) as [->|_]; [contradiction|]. cbn. f_equal. exact (IH Hl).
Qed.

Lemma not_in_without (x : nat) (l : list nat) : x ∉ without x l.
Proof.
  intros H. apply list_elem_of_In, filter_In in H as [_ H].
  rewrite Nat.eqb_refl in H. discriminate.
Qed.

Lemma indexOf_without (x : nat) (l : list nat) : indexOf x (without x l) = (-1)%Z.
Proof. apply indexOf_absent, not_in_without. Qed.

Lemma splice1_indexOf_without (x : nat) (l : list nat) :
  negb (indexOf x l =? -1)%Z = true -> NoDup l ->
  splice1 (indexOf x l) l = without x l.
Proof.
  intros Hfound Hnodup. apply negb_true_iff, Z.eqb_neq in Hfound.
  assert (Hin : x ∈ l).
  { destruct (decide (x ∈ l)) as [H|H]; [exact H|]. apply indexOf_absent in H. contradiction. }
  destruct (indexOf_from_first x l 0 Hin) as (l1 & l2 & -> & Hl1 & Hi).
  unfold indexOf. rewrite Hi, Z.add_0_l, splice1_middle.
  apply NoDup_app in Hnodup as (_ & Hdisjoint & Hl2).
  apply NoDup_cons in Hl2 as [Hl2 _].
  unfold without. rewrite List.filter_app. cbn. rewrite Nat.eqb_refl. cbn.
  fold (without x l1). fold (without x l2).
  rewrite !without_absent; auto.
Qed.

Lemma without_not_found (x : nat) (l : list nat) :
  negb (indexOf x l =? -1)%Z = false -> without x l = l.
Proof.
  intros H. apply negb_false_iff, Z.eqb_eq in H. apply without_absent, indexOf_absent, H.
Qed.

Lemma removed_file (dir : string) (l : list string) :
  ~ In dir (List.filter (fun f => negb (String.eqb dir f)) l).
Proof. intros [_ H]%filter_In. rewrite String.eqb_refl in H. discriminate. Qed.

Lemma page_close_untracked (w : World) (page : Page) :
  negb (indexOf page (pages (this w)) =? -1)%Z = false ->
  wp (page_close page)
     (fun _ w' => w' = logged (PageClose page) w
                  /\ exists hs ts, oracle (engine w) (asked (engine w)) = Returns hs ts)
     (fun e w' => w' = logged (PageClose page) w
                  /\ oracle (engine w) (asked (engine w)) = Fails e) w.
Proof.
  intros H. unfold page_close, on_page_close.
  wp_run; try (split; [reflexivity | eauto]).
  all: cbn in *; congruence.
Qed.

Lemma stopRecording_stops (w : World) (context : BrowserContext) (page : Page) :
  recordingContext (this w) = Some context -> recordingPage (this w) = Some page ->
  NoDup (pages (this w)) -> NoDup (contexts (this w)) ->
  wp stopRecording (fun result w' => recording_stopped context page w w' result)
     (fun _ _ => False) w.
Proof.
  intros Hcontext Hpage Hpages Hcontexts.
  unfold stopRecording, reset_recording_state, rmSync.
  apply wp_bind, wp_read. cbv beta. rewrite Hcontext, Hpage.
  wp_run.
  all: (eapply wp_mono;
        [ apply page_close_untracked; cbn;
          rewrite ?splice1_indexOf_without by assumption;
          rewrite ?indexOf_without; first [reflexivity | assumption]
        | cbv beta; intros ? ? [-> (? & ? & Hreturns)]
        | cbv beta; intros ? ? [-> Hfails] ]).
  all: cbn in Hreturns || cbn in Hfails.
  all: unfold logged; wp_run.
  all: try (eapply wp_mono;
            [ apply invalidateCDPSession_debugging_only
            | intros ? ? Hdebug; wp_run
            | intros ? ? [] ]).
  all: try contradiction.
  all: use_debugging.
  all: unfold recording_stopped; cbn.
  all: rewrite_manager.
  all: rewrite ?splice1_indexOf_without by assumption.
  all: rewrite ?without_not_found by assumption.
  all: repeat split; try reflexivity; try discriminate.
  all: try (intros Hanswers; exfalso; eapply not_answers; eassumption).
  all: try (intros; apply removed_file).
  all: try (intros; congruence).
  all: try (symmetry; apply without_not_found; assumption).
  all: try (intros;
            erewrite calls_since_app
              by (cbn; repeat match goal with H : calls (engine _) = _ |- _ => rewrite H end;
                  rewrite <- ?app_assoc; reflexivity);
            rewrite ?in_app_iff; cbn; intuition auto; fail).
Qed.



(** ** Screencast: a second start is rejected, a stop when idle does nothing *)

(** Claim C9.  In every state in which a screencast is active,
    [startScreencast] throws [Screencast already active] and leaves the
    manager and its collaborators as they were; in every state in which no
    screencast is active, [stopScreencast] returns without an error and
    without any request to the engine (the world is unchanged, its log of
    calls included). *)
Theorem screencast_start_twice_stop_idle (w : World) (callback : FrameCallback)
  (options : option ScreencastOptions) :
  (screencastActive (this w) = true ->
   startScreencast callback options w = (Throw "Screencast already active", w))
  /\ (screencastActive (this w) = false -> stopScreencast w = (Ok tt, w)).
Proof.
  split; intros active.
  - unfold startScreencast, bind, read. rewrite active. reflexivity.
  - unfold stopScreencast, bind, read. rewrite active. reflexivity.
Qed.

Lemma screencast_start_twice_stop_idle_witness :
  startScreencast 2%nat None (screencasting false)
  = (Throw "Screencast already active", screencasting false)
  /\ stopScreencast (one_tab false) = (Ok tt, one_tab false).
Proof.
  split.
  - apply (screencast_start_twice_stop_idle (screencasting false) 2%nat None). reflexivity.
  - apply (screencast_start_twice_stop_idle (one_tab false) 1%nat None). reflexivity.
Defined.
